(** * EV range simulator: a shallow embedding of [simulator.py]

    The simulator advances a car through discrete ticks.  On each tick the
    car either drives (battery down, odometer up) or charges (battery up),
    and a sample is appended to three parallel history lists.

    Numbers.  Python's arithmetic is duck-typed over [int] and binary64
    [float].  The program is embedded once, over an interface [Number] of
    the operations it uses, with two instances:
    - binary64 ([float]), what CPython computes; the program is evaluated
      at this instance on concrete inputs;
    - the exact rationals [Q], which stand for the reals of the
      specification's data model.
    What the program does with its numbers (which operation it applies to
    which field, in which order, under which test) is proved for every
    instance, with [=] and the program's own operations.  What depends on
    the order of the numbers is proved at the rationals, and stated there
    only where the rounding of binary64 keeps it.  Equalities between
    sums and products that binary64 keeps only up to rounding are kept
    apart, as closed forms at the rationals.

    Rational equality is [==] ([Qeq]). *)

From Stdlib Require Import QArith Qround ZArith List Lia Lqa Bool Floats.
Import ListNotations.

(** ** The arithmetic the program uses *)

Class Number (num : Type) : Type := {
  (** a numeric literal of the source text *)
  lit : Q -> num;
  (** an [int] converted for arithmetic with a [num] *)
  of_int : Z -> num;
  add : num -> num -> num;
  sub : num -> num -> num;
  mul : num -> num -> num;
  (** [a / b] for a divisor that is not zero *)
  div : num -> num -> num;
  (** [a <= b] *)
  leb : num -> num -> bool;
  (** [a > b] *)
  gtb : num -> num -> bool;
  (** [i > a] for an [int] [i]: Python compares the two exactly, without
      converting [i] *)
  int_gtb : Z -> num -> bool;
  (** [bool(a)], that is [a != 0] *)
  truthy : num -> bool
}.

Arguments lit {num _} _%_Q.

Declare Scope num_scope.
Delimit Scope num_scope with num.
Infix "+" := add : num_scope.
Infix "-" := sub : num_scope.
Infix "*" := mul : num_scope.
Infix "/" := div : num_scope.
Infix "<=?" := leb : num_scope.
Infix ">?" := gtb : num_scope.

(** [a / b] as Python evaluates it: [None] stands for the
    [ZeroDivisionError] raised when [b] is zero. *)
Definition checked_div {num} `{Number num} (a b : num) : option num :=
  if truthy b then Some (a / b)%num else None.

(** Exact rationals. *)
#[export] Instance NumQ : Number Q := {
  lit q := q;
  of_int := inject_Z;
  add := Qplus;
  sub := Qminus;
  mul := Qmult;
  div := Qdiv;
  leb := Qle_bool;
  gtb a b := negb (Qle_bool a b);
  int_gtb i a := negb (Qle_bool (inject_Z i) a);
  truthy a := negb (Qeq_bool a 0)
}.

(** The binary64 value nearest to an integer (ties to even). *)
Definition f64_of_Z (z : Z) : float :=
  SF2Prim (binary_normalize prec emax z 0 false).

(** [i > a] for an integer [i] and a binary64 [a], decided on the exact
    values: a finite [a] is [m * 2 ^ e] for integers [m] and [e]. *)
Definition f64_int_gtb (i : Z) (a : float) : bool :=
  match Prim2SF a with
  | S754_zero _ => (0 <? i)%Z
  | S754_infinity negative => negative
  | S754_nan => false
  | S754_finite negative m e =>
      let m := if negative then Z.neg m else Z.pos m in
      if (0 <=? e)%Z then (m * 2 ^ e <? i)%Z else (m <? i * 2 ^ (- e))%Z
  end.

(** Binary64.  A decimal literal [n/d] is read as the correctly rounded
    quotient of [n] and [d], which is the binary64 value nearest to it. *)
#[export] Instance NumF64 : Number float := {
  lit q := PrimFloat.div (f64_of_Z (Qnum q)) (f64_of_Z (Zpos (Qden q)));
  of_int := f64_of_Z;
  add := PrimFloat.add;
  sub := PrimFloat.sub;
  mul := PrimFloat.mul;
  div := PrimFloat.div;
  leb := PrimFloat.leb;
  gtb a b := PrimFloat.ltb b a;
  int_gtb := f64_int_gtb;
  truthy a := negb (PrimFloat.eqb a PrimFloat.zero)
}.

(** ** [power_for_velocity] *)

Section Physics.

Context {num : Type} `{Number num}.
Local Open Scope num_scope.

Definition roh : num := lit 1.2041.
Definition coefficient_of_drag : num := lit 0.23.
Definition area : num := lit 1.433 * lit 1.850.
Definition cw_a : num := coefficient_of_drag * area.
Definition force_air (velocity : num) : num :=
  cw_a * velocity * velocity / lit 2 * roh.
Definition c_r : num := lit 0.012.
Definition force_roll_resistance : num := c_r * lit 1950 * lit 9.81.
Definition power_standby : num := lit 1000.

Definition power_for_velocity (velocity : num) : num :=
  (force_air velocity + force_roll_resistance) * velocity + power_standby.

End Physics.

(** ** The report *)

(** The values [Car.status_text] puts into its text, before they are
    formatted. *)
Module Report.

Record t {num : Type} : Type := mk {
  battery_capacity : num;
  battery_charge_current : num;
  battery_charge_total : num;
  battery_charge_speed : num;
  number_of_charging_stops : Z;
  energy_use_per_hour : num;
  energy_use_per_tick : num;
  energy_use_per_km : num;
  distance_per_tick : num;
  distance_driven : num;
  target_speed : num;
  average_speed : num;
  time_factor : num;
  ticks_per_hour : num
}.
Arguments t : clear implicits.
Arguments mk {num}.

End Report.

(** ** The car *)

Module Car.

Record t {num : Type} : Type := mk {
  time_factor : num;
  charging : bool;
  battery_capacity : num;
  battery_charge : num;
  battery_charge_total : num;
  energy_usage_per_tick : num;
  charge_speed_per_tick : num;
  number_of_charging_stops : Z;
  distance_driven : num;
  distance_per_tick : num;
  charge_level_history : list num;
  distance_driven_history : list num;
  time_history : list Z
}.
Arguments t : clear implicits.
Arguments mk {num}.

(** Which of the two branches of [tick] a state takes. *)
Inductive TickKind : Type := Charging | Driving.

Definition is_charging_kind (k : TickKind) : bool :=
  match k with Charging => true | Driving => false end.

Section Methods.

Context {num : Type} `{Number num}.
Local Open Scope num_scope.

(** Attribute assignments [self.x = v], one per attribute the methods write. *)

Definition set_charging (v : bool) (self : t num) : t num :=
  mk (time_factor self) v (battery_capacity self) (battery_charge self)
     (battery_charge_total self) (energy_usage_per_tick self)
     (charge_speed_per_tick self) (number_of_charging_stops self)
     (distance_driven self) (distance_per_tick self)
     (charge_level_history self) (distance_driven_history self)
     (time_history self).

Definition set_battery_charge (v : num) (self : t num) : t num :=
  mk (time_factor self) (charging self) (battery_capacity self) v
     (battery_charge_total self) (energy_usage_per_tick self)
     (charge_speed_per_tick self) (number_of_charging_stops self)
     (distance_driven self) (distance_per_tick self)
     (charge_level_history self) (distance_driven_history self)
     (time_history self).

Definition set_battery_charge_total (v : num) (self : t num) : t num :=
  mk (time_factor self) (charging self) (battery_capacity self)
     (battery_charge self) v (energy_usage_per_tick self)
     (charge_speed_per_tick self) (number_of_charging_stops self)
     (distance_driven self) (distance_per_tick self)
     (charge_level_history self) (distance_driven_history self)
     (time_history self).

Definition set_number_of_charging_stops (v : Z) (self : t num) : t num :=
  mk (time_factor self) (charging self) (battery_capacity self)
     (battery_charge self) (battery_charge_total self)
     (energy_usage_per_tick self) (charge_speed_per_tick self) v
     (distance_driven self) (distance_per_tick self)
     (charge_level_history self) (distance_driven_history self)
     (time_history self).

Definition set_distance_driven (v : num) (self : t num) : t num :=
  mk (time_factor self) (charging self) (battery_capacity self)
     (battery_charge self) (battery_charge_total self)
     (energy_usage_per_tick self) (charge_speed_per_tick self)
     (number_of_charging_stops self) v (distance_per_tick self)
     (charge_level_history self) (distance_driven_history self)
     (time_history self).

Definition set_charge_level_history (v : list num) (self : t num) : t num :=
  mk (time_factor self) (charging self) (battery_capacity self)
     (battery_charge self) (battery_charge_total self)
     (energy_usage_per_tick self) (charge_speed_per_tick self)
     (number_of_charging_stops self) (distance_driven self)
     (distance_per_tick self) v (distance_driven_history self)
     (time_history self).

Definition set_distance_driven_history (v : list num) (self : t num) : t num :=
  mk (time_factor self) (charging self) (battery_capacity self)
     (battery_charge self) (battery_charge_total self)
     (energy_usage_per_tick self) (charge_speed_per_tick self)
     (number_of_charging_stops self) (distance_driven self)
     (distance_per_tick self) (charge_level_history self) v
     (time_history self).

Definition set_time_history (v : list Z) (self : t num) : t num :=
  mk (time_factor self) (charging self) (battery_capacity self)
     (battery_charge self) (battery_charge_total self)
     (energy_usage_per_tick self) (charge_speed_per_tick self)
     (number_of_charging_stops self) (distance_driven self)
     (distance_per_tick self) (charge_level_history self)
     (distance_driven_history self) v.

(** Defaults of the keyword arguments of [__init__]. *)
Definition default_charge_speed_per_hour : num := lit 21000.
Definition default_distance_per_hour : num := lit 70.

(** [Car.__init__] *)
Definition init (time_factor charge_speed_per_hour distance_per_hour : num)
  : t num :=
  let battery_capacity := lit 70000 in
  let battery_charge := battery_capacity in
  {| time_factor := time_factor;
     charging := false;
     battery_capacity := battery_capacity;
     battery_charge := battery_charge;
     battery_charge_total := battery_charge;
     energy_usage_per_tick :=
       power_for_velocity (distance_per_hour / lit 3.6) * time_factor;
     charge_speed_per_tick := charge_speed_per_hour * time_factor;
     number_of_charging_stops := 0%Z;
     distance_driven := lit 0;
     distance_per_tick := distance_per_hour * time_factor;
     charge_level_history := [];
     distance_driven_history := [];
     time_history := [] |}.

(** [Car.drive] *)
Definition drive (self : t num) : t num :=
  let self :=
    set_battery_charge (battery_charge self - energy_usage_per_tick self) self in
  set_distance_driven (distance_driven self + distance_per_tick self) self.

(** [Car.is_fully_charged] *)
Definition is_fully_charged (self : t num) : bool :=
  (battery_charge self + charge_speed_per_tick self) >? battery_capacity self.

(** [Car.is_sufficiently_charged] *)
Definition is_sufficiently_charged
  (self : t num) (time : Z) (total_duration : num) : bool :=
  let remaining_time := total_duration - of_int time in
  battery_charge self >? (remaining_time * energy_usage_per_tick self).

(** [Car.charge] *)
Definition charge (self : t num) (time : Z) (total_duration : num) : t num :=
  let self :=
    if negb (charging self) then
      let self := set_charging true self in
      set_number_of_charging_stops (number_of_charging_stops self + 1)%Z self
    else self in
  let self :=
    set_battery_charge (battery_charge self + charge_speed_per_tick self) self in
  let self :=
    set_battery_charge_total
      (battery_charge_total self + charge_speed_per_tick self) self in
  if is_fully_charged self || is_sufficiently_charged self time total_duration
  then set_charging false self
  else self.

(** The three [append] calls that end [Car.tick]. *)
Definition record_history (time : Z) (self : t num) : t num :=
  let self := set_time_history (time_history self ++ [time]) self in
  let self :=
    set_charge_level_history
      (charge_level_history self ++ [battery_charge self]) self in
  set_distance_driven_history
    (distance_driven_history self ++ [distance_driven self]) self.

(** [Car.tick] *)
Definition tick (self : t num) (time : Z) (total_duration : num) : t num :=
  let self :=
    if charging self
       || (battery_charge self - energy_usage_per_tick self <=? lit 0)
    then charge self time total_duration
    else drive self in
  record_history time self.

(** The local [energy_per_km] of [Car.status_text]. *)
Definition energy_per_km (self : t num) : option num :=
  if truthy (distance_driven self)
  then checked_div (battery_charge_total self - battery_charge self)
                   (distance_driven self)
  else Some (lit 0).

(** [Car.status_text], as far as the numbers go: the values it formats,
    or [None] when one of its divisions raises [ZeroDivisionError]. *)
Definition status_text (self : t num) (duration : num)
  : option (Report.t num) :=
  match energy_per_km self with None => None | Some energy_per_km =>
  match checked_div (charge_speed_per_tick self) (time_factor self) with
  | None => None | Some battery_charge_speed =>
  match checked_div (energy_usage_per_tick self) (time_factor self) with
  | None => None | Some energy_use_per_hour =>
  match checked_div (distance_per_tick self) (time_factor self) with
  | None => None | Some target_speed =>
  match checked_div (distance_driven self) duration with
  | None => None | Some per_duration =>
  match checked_div per_duration (time_factor self) with
  | None => None | Some average_speed =>
  match checked_div (lit 1) (time_factor self) with
  | None => None | Some ticks_per_hour =>
  Some (Report.mk
          (battery_capacity self) (battery_charge self)
          (battery_charge_total self) battery_charge_speed
          (number_of_charging_stops self) energy_use_per_hour
          (energy_usage_per_tick self) energy_per_km
          (distance_per_tick self) (distance_driven self)
          target_speed average_speed (time_factor self) ticks_per_hour)
  end end end end end end end.

(** *** Sequences of ticks *)

Definition tick_kind (self : t num) : TickKind :=
  if charging self
     || (battery_charge self - energy_usage_per_tick self <=? lit 0)
  then Charging else Driving.

(** A sequence of calls [tick(time, total_duration)] on one car. *)
Fixpoint ticks (self : t num) (calls : list (Z * num)) : t num :=
  match calls with
  | [] => self
  | (time, total_duration) :: rest => ticks (tick self time total_duration) rest
  end.

(** The kinds of the ticks of such a sequence, in order. *)
Fixpoint kinds (self : t num) (calls : list (Z * num)) : list TickKind :=
  match calls with
  | [] => []
  | (time, total_duration) :: rest =>
      tick_kind self :: kinds (tick self time total_duration) rest
  end.

(** The charging flag each tick of such a sequence starts with, in order. *)
Fixpoint flags (self : t num) (calls : list (Z * num)) : list bool :=
  match calls with
  | [] => []
  | (time, total_duration) :: rest =>
      charging self :: flags (tick self time total_duration) rest
  end.

(** States a car can be in: built by [init], then ticked any number of
    times. *)
Inductive Reachable : t num -> Prop :=
| reach_init tf cs dph : Reachable (init tf cs dph)
| reach_tick self time total_duration :
    Reachable self -> Reachable (tick self time total_duration).

End Methods.

End Car.

Import Car(Charging, Driving).

(** Number of charging ticks, and of driving ticks, in a trace. *)
Definition count_charging (ks : list Car.TickKind) : nat :=
  length (filter Car.is_charging_kind ks).

Definition count_driving (ks : list Car.TickKind) : nat :=
  length (filter (fun k => negb (Car.is_charging_kind k)) ks).

(** Number of charging ticks of a sequence of calls that start with the
    charging flag clear. *)
Definition sessions_entered {num} `{Number num}
  (self : Car.t num) (calls : list (Z * num)) : Z :=
  Z.of_nat
    (length
       (filter (fun kf => Car.is_charging_kind (fst kf) && negb (snd kf))
          (combine (Car.kinds self calls) (Car.flags self calls)))).

(** Number of maximal contiguous runs of charging ticks in a trace;
    [prev] tells whether the tick before the trace was a charging tick. *)
Fixpoint charging_runs (prev : bool) (ks : list Car.TickKind) : Z :=
  match ks with
  | [] => 0
  | Charging :: rest => ((if prev then 0 else 1) + charging_runs true rest)%Z
  | Driving :: rest => charging_runs false rest
  end.

(** [x] after [n] statements [x += step]. *)
Fixpoint add_times {num : Type} `{Number num} (n : nat) (step x : num) : num :=
  match n with
  | O => x
  | S n => add_times n step (x + step)%num
  end.

(** ** The simulation loop *)

Module Simulation.

Record t {num : Type} : Type := mk {
  time : Z;
  time_factor : num;
  duration : num;
  car : Car.t num
}.
Arguments t : clear implicits.
Arguments mk {num}.

(** How a call ends: it returns, it raises [ZeroDivisionError], or the
    fuel given to its loop runs out. *)
Inductive Outcome (A : Type) : Type :=
| Returned (a : A)
| Raised
| Out_of_fuel.
Arguments Returned {A}.
Arguments Raised {A}.
Arguments Out_of_fuel {A}.

Section Methods.

Context {num : Type} `{Number num}.
Local Open Scope num_scope.

(** [Simulation.__init__] *)
Definition init (time_factor total_duration : num) (car : Car.t num) : t num :=
  {| time := 1; time_factor := time_factor; duration := total_duration;
     car := car |}.

(** [Simulation.is_done] *)
Definition is_done (self : t num) : bool :=
  int_gtb (time self) (duration self).

(** [Simulation.tick] *)
Definition tick (self : t num) : t num :=
  let car := Car.tick (car self) (time self) (duration self) in
  {| time := time self + 1; time_factor := time_factor self;
     duration := duration self; car := car |}.

(** The [while not self.is_done(): self.tick()] of [Simulation.start];
    the report printed before and after it and the plot are left out.
    [fuel] bounds the number of times the loop condition is evaluated and
    [None] means the bound was hit. *)
Fixpoint loop (fuel : nat) (self : t num) : option (t num) :=
  match fuel with
  | O => None
  | S fuel => if is_done self then Some self else loop fuel (tick self)
  end.

(** [Simulation.start]: the report before the loop, the loop, the report
    after it.  The result holds the two reports and the final state; the
    printing and the plot are left out. *)
Definition start (fuel : nat) (self : t num)
  : Outcome (Report.t num * t num * Report.t num) :=
  match Car.status_text (car self) (duration self) with
  | None => Raised
  | Some first =>
      match loop fuel self with
      | None => Out_of_fuel
      | Some final =>
          match Car.status_text (car final) (duration final) with
          | None => Raised
          | Some last => Returned (first, final, last)
          end
      end
  end.

End Methods.

End Simulation.

(** The calls [Simulation.tick] makes for [n] ticks starting at tick index
    [time]. *)
Fixpoint calls_from {num : Type} (time : Z) (n : nat) (total_duration : num)
  : list (Z * num) :=
  match n with
  | O => []
  | S n => (time, total_duration) :: calls_from (time + 1) n total_duration
  end.

(** The tick indices [1..n]. *)
Definition indices (n : nat) : list Z := map Z.of_nat (seq 1 n).

(** ** The entry point *)

Section Main.

Context {num : Type} `{Number num}.
Local Open Scope num_scope.

Definition main_time_factor : num := lit 1 / lit 60.
Definition main_total_duration : num := lit 24 / main_time_factor.
Definition main_speeds : list num :=
  [lit 70; lit 80; lit 85; lit 88; lit 90; lit 95; lit 100].

(** The simulation the body of the [for] loop builds for one speed. *)
Definition main_simulation (speed : num) : Simulation.t num :=
  Simulation.init main_time_factor main_total_duration
    (Car.init main_time_factor Car.default_charge_speed_per_hour speed).

(** The [for] loop: one [start] per speed, in order; an exception ends
    it. *)
Fixpoint main_loop (fuel : nat) (speeds : list num)
  : Simulation.Outcome (list (Simulation.t num)) :=
  match speeds with
  | [] => Simulation.Returned []
  | speed :: rest =>
      match Simulation.start fuel (main_simulation speed) with
      | Simulation.Raised => Simulation.Raised
      | Simulation.Out_of_fuel => Simulation.Out_of_fuel
      | Simulation.Returned (_, final, _) =>
          match main_loop fuel rest with
          | Simulation.Returned finals => Simulation.Returned (final :: finals)
          | Simulation.Raised => Simulation.Raised
          | Simulation.Out_of_fuel => Simulation.Out_of_fuel
          end
      end
  end.

Definition main (fuel : nat) : Simulation.Outcome (list (Simulation.t num)) :=
  main_loop fuel main_speeds.

End Main.

(** What [main] finds after the simulation for one speed: the car has run
    the 1440 ticks of the day, its stop counter is the number of maximal
    runs of charging ticks, it is not charging, and its battery holds
    something and at most one tick of charge above the capacity. *)
Definition main_result (speed : Q) (final : Simulation.t Q) : Prop :=
  let car0 :=
    Car.init main_time_factor Car.default_charge_speed_per_hour speed in
  let calls := calls_from 1 1440 main_total_duration in
  Simulation.car final = Car.ticks car0 calls
  /\ Simulation.time final = 1441%Z
  /\ Car.time_history (Simulation.car final) = indices 1440
  /\ Car.number_of_charging_stops (Simulation.car final)
     = charging_runs false (Car.kinds car0 calls)
  /\ Car.charging (Simulation.car final) = false
  /\ (0 < Car.battery_charge (Simulation.car final))%Q
  /\ (Car.battery_charge (Simulation.car final) <= 70350)%Q.

(** ** Proof tools *)

(** Exposes the operations of the rational instance. *)
Ltac numq :=
  cbv beta iota delta
    [lit of_int add sub mul div leb gtb int_gtb truthy NumQ] in *.

(** Unfolds the methods of the car down to its fields. *)
Ltac car_unfold :=
  cbv beta iota zeta delta
    [Car.tick Car.tick_kind Car.record_history Car.charge Car.drive
     Car.is_fully_charged Car.is_sufficiently_charged
     Car.set_charging Car.set_battery_charge Car.set_battery_charge_total
     Car.set_number_of_charging_stops Car.set_distance_driven
     Car.set_charge_level_history Car.set_distance_driven_history
     Car.set_time_history
     Car.charging Car.battery_charge Car.battery_capacity
     Car.battery_charge_total Car.energy_usage_per_tick Car.time_factor
     Car.charge_speed_per_tick Car.number_of_charging_stops
     Car.distance_driven Car.distance_per_tick Car.charge_level_history
     Car.distance_driven_history Car.time_history
     Car.is_charging_kind negb orb andb] in *.

(** Case analysis on every branch a tick of [self] can take. *)
Ltac car_cases self :=
  destruct self as [? [ | ] ? ? ? ? ? ? ? ? ? ? ?];
  car_unfold;
  repeat match goal with
  | |- context [if ?c then _ else _] => destruct c eqn:?
  | H : context [if ?c then _ else _] |- _ => destruct c eqn:?
  end.

(** Decides a closed comparison of rationals by evaluation. *)
Ltac q_eval := vm_compute; first [reflexivity | discriminate].

(** ** What holds whatever the arithmetic *)

Section Structure.

Context {num : Type} `{Number num}.

Lemma tick_by_kind (self : Car.t num) (time : Z) (total_duration : num) :
  Car.tick self time total_duration
  = Car.record_history time
      (match Car.tick_kind self with
       | Charging => Car.charge self time total_duration
       | Driving => Car.drive self
       end).
Proof.
  unfold Car.tick, Car.tick_kind.
  destruct (Car.charging self || _); reflexivity.
Qed.

(** The configuration of a car is never written after [init]. *)
Lemma tick_constants (self : Car.t num) (time : Z) (total_duration : num) :
  let self' := Car.tick self time total_duration in
  Car.time_factor self' = Car.time_factor self
  /\ Car.battery_capacity self' = Car.battery_capacity self
  /\ Car.energy_usage_per_tick self' = Car.energy_usage_per_tick self
  /\ Car.charge_speed_per_tick self' = Car.charge_speed_per_tick self
  /\ Car.distance_per_tick self' = Car.distance_per_tick self.
Proof. car_cases self; repeat split. Qed.

Lemma ticks_constants (calls : list (Z * num)) : forall self : Car.t num,
  let self' := Car.ticks self calls in
  Car.time_factor self' = Car.time_factor self
  /\ Car.battery_capacity self' = Car.battery_capacity self
  /\ Car.energy_usage_per_tick self' = Car.energy_usage_per_tick self
  /\ Car.charge_speed_per_tick self' = Car.charge_speed_per_tick self
  /\ Car.distance_per_tick self' = Car.distance_per_tick self.
Proof.
  induction calls as [ | [time d] rest IH]; intro self; cbn.
  - repeat split.
  - destruct (IH (Car.tick self time d)) as (H1 & H2 & H3 & H4 & H5).
    destruct (tick_constants self time d) as (K1 & K2 & K3 & K4 & K5).
    cbn in *. repeat split; congruence.
Qed.

(** Every tick appends one sample to each history. *)
Lemma tick_histories (self : Car.t num) (time : Z) (total_duration : num) :
  let self' := Car.tick self time total_duration in
  Car.time_history self' = Car.time_history self ++ [time]
  /\ Car.charge_level_history self'
     = Car.charge_level_history self ++ [Car.battery_charge self']
  /\ Car.distance_driven_history self'
     = Car.distance_driven_history self ++ [Car.distance_driven self'].
Proof. car_cases self; repeat split. Qed.

Lemma ticks_time_history (calls : list (Z * num)) : forall self : Car.t num,
  Car.time_history (Car.ticks self calls)
  = Car.time_history self ++ map fst calls.
Proof.
  induction calls as [ | [time d] rest IH]; intro self; cbn.
  - symmetry. apply app_nil_r.
  - rewrite IH.
    destruct (tick_histories self time d) as (Ht & _). cbn zeta in Ht.
    rewrite Ht, <- app_assoc. reflexivity.
Qed.

Lemma ticks_history_lengths (calls : list (Z * num)) :
  forall self : Car.t num,
  length (Car.charge_level_history (Car.ticks self calls))
  = (length (Car.charge_level_history self) + length calls)%nat
  /\ length (Car.distance_driven_history (Car.ticks self calls))
     = (length (Car.distance_driven_history self) + length calls)%nat.
Proof.
  induction calls as [ | [time d] rest IH]; intro self; cbn.
  - split; apply plus_n_O.
  - destruct (IH (Car.tick self time d)) as (H1 & H2).
    destruct (tick_histories self time d) as (_ & Hc & Hx). cbn zeta in Hc, Hx.
    rewrite H1, H2, Hc, Hx, !length_app. cbn. split; lia.
Qed.

(** The flag and the counter over one tick: a driving tick starts and ends
    with the flag clear and leaves the counter alone; a charging tick
    counts a stop when it starts with the flag clear, and ends with the
    flag clear when one of the two stop conditions holds. *)
Lemma tick_flag_and_stops
  (self : Car.t num) (time : Z) (total_duration : num) :
  let self' := Car.tick self time total_duration in
  match Car.tick_kind self with
  | Driving =>
      Car.charging self = false
      /\ Car.charging self' = false
      /\ Car.number_of_charging_stops self' = Car.number_of_charging_stops self
  | Charging =>
      Car.number_of_charging_stops self'
      = (Car.number_of_charging_stops self
         + (if Car.charging self then 0 else 1))%Z
      /\ Car.charging self'
         = negb (Car.is_fully_charged self'
                 || Car.is_sufficiently_charged self' time total_duration)
  end.
Proof.
  car_cases self; repeat split; try reflexivity;
    try (symmetry; apply Z.add_0_r); congruence.
Qed.

(** Whatever the configuration, the counter counts the charging ticks that
    start with the flag clear. *)
Lemma stops_sessions (calls : list (Z * num)) : forall self : Car.t num,
  Car.number_of_charging_stops (Car.ticks self calls)
  = (Car.number_of_charging_stops self + sessions_entered self calls)%Z.
Proof.
  unfold sessions_entered.
  induction calls as [ | [time d] rest IH]; intro self;
    cbn [Car.ticks Car.kinds Car.flags combine filter length fst snd].
  - cbn. lia.
  - rewrite IH. pose proof (tick_flag_and_stops self time d) as Ht.
    cbn zeta in Ht.
    destruct (Car.tick_kind self); cbn [Car.is_charging_kind andb].
    + destruct Ht as (Hs & _). rewrite Hs.
      destruct (Car.charging self); cbn [negb length]; lia.
    + destruct Ht as (_ & _ & Hs). rewrite Hs. lia.
Qed.

(** [Reachable] states are the results of [ticks] on a fresh car. *)
Lemma ticks_snoc (calls : list (Z * num)) (time : Z) (d : num) :
  forall self : Car.t num,
  Car.ticks self (calls ++ [(time, d)]) = Car.tick (Car.ticks self calls) time d.
Proof.
  induction calls as [ | [t' d'] rest IH]; intro self; cbn; [reflexivity | ].
  apply IH.
Qed.

Lemma reachable_ticks (calls : list (Z * num)) : forall self : Car.t num,
  Car.Reachable self -> Car.Reachable (Car.ticks self calls).
Proof.
  induction calls as [ | [time d] rest IH]; intros self Hs; cbn; [exact Hs | ].
  apply IH. constructor. exact Hs.
Qed.

Lemma reachable_iff (self : Car.t num) :
  Car.Reachable self
  <-> exists tf cs dph calls, self = Car.ticks (Car.init tf cs dph) calls.
Proof.
  split.
  - induction 1 as [tf cs dph | s time d _ (tf & cs & dph & calls & ->)].
    + exists tf, cs, dph, []. reflexivity.
    + exists tf, cs, dph, (calls ++ [(time, d)]). symmetry. apply ticks_snoc.
  - intros (tf & cs & dph & calls & ->). apply reachable_ticks. constructor.
Qed.

(** What one tick does to the numbers the methods compute with. *)
Lemma tick_effects (self : Car.t num) (time : Z) (total_duration : num) :
  let self' := Car.tick self time total_duration in
  match Car.tick_kind self with
  | Driving =>
      Car.battery_charge self'
      = sub (Car.battery_charge self) (Car.energy_usage_per_tick self)
      /\ Car.distance_driven self'
         = add (Car.distance_driven self) (Car.distance_per_tick self)
      /\ Car.battery_charge_total self' = Car.battery_charge_total self
  | Charging =>
      Car.battery_charge self'
      = add (Car.battery_charge self) (Car.charge_speed_per_tick self)
      /\ Car.distance_driven self' = Car.distance_driven self
      /\ Car.battery_charge_total self'
         = add (Car.battery_charge_total self) (Car.charge_speed_per_tick self)
  end.
Proof. car_cases self; repeat split; congruence. Qed.

(** [battery_charge_total] is [charge_speed_per_tick] added once per
    charging tick, and [distance_driven] is [distance_per_tick] added once
    per driving tick, to what the sequence started with. *)
Lemma ticks_total_sum (calls : list (Z * num)) : forall self : Car.t num,
  Car.battery_charge_total (Car.ticks self calls)
  = add_times (count_charging (Car.kinds self calls))
      (Car.charge_speed_per_tick self) (Car.battery_charge_total self).
Proof.
  unfold count_charging.
  induction calls as [ | [time d] rest IH]; intro self;
    cbn [Car.ticks Car.kinds filter]; [reflexivity | ].
  rewrite IH.
  destruct (tick_constants self time d) as (_ & _ & _ & Hr & _).
  pose proof (tick_effects self time d) as Ht. cbn zeta in Hr, Ht.
  rewrite Hr.
  destruct (Car.tick_kind self); cbn [Car.is_charging_kind length add_times];
    destruct Ht as (_ & _ & Ht); rewrite Ht; reflexivity.
Qed.



(** [energy_per_km] divides only by a distance it has found not to be
    zero. *)
Lemma energy_per_km_value (self : Car.t num) :
  Car.energy_per_km self
  = Some (if truthy (Car.distance_driven self)
          then div (sub (Car.battery_charge_total self)
                        (Car.battery_charge self))
                   (Car.distance_driven self)
          else lit 0).
Proof.
  unfold Car.energy_per_km, checked_div.
  destruct (truthy (Car.distance_driven self)); reflexivity.
Qed.

(** [status_text] divides by the time factor and by the duration without
    looking at them. *)
Lemma status_text_none_iff (self : Car.t num) (duration : num) :
  Car.status_text self duration = None
  <-> truthy (Car.time_factor self) = false \/ truthy duration = false.
Proof.
  unfold Car.status_text. rewrite energy_per_km_value. unfold checked_div.
  destruct (truthy (Car.time_factor self)), (truthy duration); cbn;
    split; intro Hx; try discriminate; try reflexivity; auto;
    destruct Hx; discriminate.
Qed.

Lemma calls_from_times (n : nat) : forall (time : Z) (d : num),
  map fst (calls_from time n d)
  = map (fun i => (time + Z.of_nat i)%Z) (seq 0 n).
Proof.
  induction n as [ | n IH]; intros time d; cbn [calls_from map seq].
  - reflexivity.
  - rewrite IH, <- seq_shift, map_map. f_equal.
    + cbn. lia.
    + apply map_ext. intro i. lia.
Qed.

Lemma calls_from_indices (n : nat) (d : num) :
  map fst (calls_from 1 n d) = indices n.
Proof.
  rewrite calls_from_times. unfold indices.
  rewrite <- seq_shift, map_map. apply map_ext. intro i. lia.
Qed.

Lemma calls_from_length (n : nat) : forall (time : Z) (d : num),
  length (calls_from time n d) = n.
Proof. induction n as [ | n IH]; intros; cbn; [ | rewrite IH]; reflexivity. Qed.

End Structure.

Local Open Scope Q_scope.

(** ** The rational instance *)

Lemma gtb_spec (a b : Q) : gtb a b = true <-> b < a.
Proof.
  numq. rewrite negb_true_iff.
  destruct (Qle_bool a b) eqn:E.
  - apply Qle_bool_iff in E. split; [discriminate | intro H; lra].
  - split; [intros _ | reflexivity].
    destruct (Qlt_le_dec b a) as [H | H]; [exact H | ].
    apply Qle_bool_iff in H. congruence.
Qed.

Lemma inject_nat_succ (n : nat) :
  inject_Z (Z.of_nat (S n)) == inject_Z (Z.of_nat n) + 1.
Proof. rewrite Nat2Z.inj_succ, <- Z.add_1_r, inject_Z_plus. reflexivity. Qed.

Lemma inject_nat_pos (n : nat) : (0 < n)%nat -> 1 <= inject_Z (Z.of_nat n).
Proof. intro H. change 1 with (inject_Z 1). rewrite <- Zle_Qle. lia. Qed.

(** ** The physics function *)

(** C8. The physics function at velocity 0 is exactly the standby power
    1000: the drag force and the rolling force are both multiplied by the
    velocity before the standby power is added.  It holds over the
    rationals and, for the literal constant, in binary64. *)
Theorem C8_power_at_zero :
  (forall v : Q,
     power_for_velocity v
     = (force_air v + force_roll_resistance) * v + power_standby)
  /\ power_for_velocity (0 : Q) == 1000
  /\ power_for_velocity 0%float = 1000%float.
Proof.
  split; [reflexivity | split].
  - unfold power_for_velocity, power_standby. numq. ring.
  - vm_compute. reflexivity.
Qed.

(** ** One tick *)

Lemma tick_kind_charging_iff (self : Car.t Q) :
  Car.tick_kind self = Charging
  <-> Car.charging self = true
      \/ Car.battery_charge self - Car.energy_usage_per_tick self <= 0.
Proof.
  unfold Car.tick_kind. numq.
  destruct (Car.charging self) eqn:Ef; cbn [orb].
  - split; auto.
  - destruct (Qle_bool _ _) eqn:El.
    + apply Qle_bool_iff in El. split; auto.
    + split; [discriminate | ].
      intros [H | H]; [discriminate | ].
      apply Qle_bool_iff in H. congruence.
Qed.

(** What one tick does to the battery, the odometer and the counters. *)
Lemma tick_driving (self : Car.t Q) (time : Z) (total_duration : Q) :
  Car.tick_kind self = Driving ->
  let self' := Car.tick self time total_duration in
  Car.charging self = false
  /\ Car.charging self' = false
  /\ Car.battery_charge self'
     = Car.battery_charge self - Car.energy_usage_per_tick self
  /\ Car.distance_driven self'
     = Car.distance_driven self + Car.distance_per_tick self
  /\ Car.battery_charge_total self' = Car.battery_charge_total self
  /\ Car.number_of_charging_stops self' = Car.number_of_charging_stops self.
Proof.
  intro Hk. rewrite tick_by_kind, Hk. cbn zeta.
  unfold Car.tick_kind in Hk.
  destruct (Car.charging self) eqn:Ef; cbn [orb] in Hk; [discriminate | ].
  car_unfold. rewrite Ef. repeat split.
Qed.

Lemma tick_charging (self : Car.t Q) (time : Z) (total_duration : Q) :
  Car.tick_kind self = Charging ->
  let self' := Car.tick self time total_duration in
  Car.battery_charge self'
  = Car.battery_charge self + Car.charge_speed_per_tick self
  /\ Car.distance_driven self' = Car.distance_driven self
  /\ Car.battery_charge_total self'
     = Car.battery_charge_total self + Car.charge_speed_per_tick self
  /\ Car.number_of_charging_stops self'
     = (Car.number_of_charging_stops self
        + (if Car.charging self then 0 else 1))%Z
  /\ Car.charging self'
     = negb (Car.is_fully_charged self'
             || Car.is_sufficiently_charged self' time total_duration).
Proof.
  intro Hk. rewrite tick_by_kind, Hk. cbn zeta.
  revert Hk.
  car_cases self; intro Hk; repeat split; try reflexivity;
    try (symmetry; apply Z.add_0_r); try congruence.
Qed.

(** C1. A tick is a charging tick exactly when the charging flag is set or
    one more tick of driving would leave [battery_charge -
    energy_usage_per_tick <= 0], both read from the state the tick starts
    in; then [tick] runs [charge].  Otherwise it is a driving tick: [tick]
    runs [drive], which takes [energy_usage_per_tick] off the battery and
    puts [distance_per_tick] on the odometer. *)
Theorem C1_tick_policy (self : Car.t Q) (time : Z) (total_duration : Q) :
  let must_charge :=
    Car.charging self = true
    \/ Car.battery_charge self - Car.energy_usage_per_tick self <= 0 in
  let self' := Car.tick self time total_duration in
  (Car.tick_kind self = Charging <-> must_charge)
  /\ (Car.tick_kind self = Driving <-> ~ must_charge)
  /\ (must_charge ->
      self' = Car.record_history time (Car.charge self time total_duration))
  /\ (~ must_charge ->
      self' = Car.record_history time (Car.drive self)
      /\ Car.battery_charge self'
         = Car.battery_charge self - Car.energy_usage_per_tick self
      /\ Car.distance_driven self'
         = Car.distance_driven self + Car.distance_per_tick self).
Proof.
  cbn zeta. pose proof (tick_kind_charging_iff self) as Hiff.
  split; [exact Hiff | ].
  assert (Hd : Car.tick_kind self = Driving
               <-> ~ (Car.charging self = true
                      \/ Car.battery_charge self
                         - Car.energy_usage_per_tick self <= 0)).
  { rewrite <- Hiff. destruct (Car.tick_kind self); split; intro H;
      congruence. }
  split; [exact Hd | split].
  - intro H. apply Hiff in H. rewrite tick_by_kind, H. reflexivity.
  - intro H. apply Hd in H.
    destruct (tick_driving self time total_duration H) as (_ & _ & Hb & Hx & _).
    rewrite tick_by_kind, H in *. auto.
Qed.

(** C2. On a charging tick the battery first gains
    [charge_speed_per_tick]; the tick then leaves the charging flag clear
    exactly when, for that post-charge battery value [c], either
    [c + charge_speed_per_tick > battery_capacity] or
    [c > (total_duration - time) * energy_usage_per_tick]; otherwise the
    flag is left set. *)
Theorem C2_charge_stop_conditions
  (self : Car.t Q) (time : Z) (total_duration : Q) :
  Car.tick_kind self = Charging ->
  let self' := Car.tick self time total_duration in
  let c := Car.battery_charge self + Car.charge_speed_per_tick self in
  let stop :=
    Car.battery_capacity self < c + Car.charge_speed_per_tick self
    \/ (total_duration - inject_Z time) * Car.energy_usage_per_tick self < c in
  Car.battery_charge self' = c
  /\ (Car.charging self' = false <-> stop)
  /\ (Car.charging self' = true <-> ~ stop).
Proof.
  intro Hk. cbn zeta.
  destruct (tick_charging self time total_duration Hk) as (Hb & _ & _ & _ & Hf).
  destruct (tick_constants self time total_duration) as (_ & Hc & He & Hr & _).
  cbn zeta in *.
  set (self' := Car.tick self time total_duration) in *.
  assert (Hstop : Car.is_fully_charged self'
                  || Car.is_sufficiently_charged self' time total_duration
                  = true
                  <-> Car.battery_capacity self
                      < Car.battery_charge self + Car.charge_speed_per_tick self
                        + Car.charge_speed_per_tick self
                      \/ (total_duration - inject_Z time)
                         * Car.energy_usage_per_tick self
                         < Car.battery_charge self
                           + Car.charge_speed_per_tick self).
  { rewrite orb_true_iff.
    unfold Car.is_fully_charged, Car.is_sufficiently_charged.
    rewrite !gtb_spec, Hb, Hc, He, Hr. reflexivity. }
  split; [exact Hb | ].
  rewrite Hf, <- Hstop.
  destruct (Car.is_fully_charged self' || _); cbn; split; split;
    congruence.
Qed.

(** C6 (as the code has it).  Whatever the arithmetic, a driving tick
    leaves [battery_charge_total] as it was and a charging tick replaces
    it by [battery_charge_total + charge_speed_per_tick]; so it changes
    only on charging ticks.  In a reachable state with a charge per tick
    that is not negative it never decreases over a tick, and it can grow
    only on a charging tick; whether a charging tick does make it grow
    depends on the charge per tick. *)
Theorem C6_total_monotone :
  (forall (num : Type) (N : Number num)
          (self : Car.t num) (time : Z) (total_duration : num),
     let self' := Car.tick self time total_duration in
     (Car.tick_kind self = Driving ->
      Car.battery_charge_total self' = Car.battery_charge_total self)
     /\ (Car.tick_kind self = Charging ->
         Car.battery_charge_total self'
         = add (Car.battery_charge_total self)
               (Car.charge_speed_per_tick self))
     /\ (Car.battery_charge_total self' <> Car.battery_charge_total self ->
         Car.tick_kind self = Charging))
  /\ (forall (self : Car.t Q) (time : Z) (total_duration : Q),
        Car.Reachable self ->
        0 <= Car.charge_speed_per_tick self ->
        let self' := Car.tick self time total_duration in
        Car.battery_charge_total self <= Car.battery_charge_total self'
        /\ (Car.battery_charge_total self < Car.battery_charge_total self' ->
            Car.tick_kind self = Charging)).
Proof.
  split.
  - intros num N self time d. cbn zeta.
    pose proof (tick_effects self time d) as Ht. cbn zeta in Ht.
    destruct (Car.tick_kind self); destruct Ht as (_ & _ & Ht);
      repeat split; intros; congruence.
  - intros self time d _ Hr. cbn zeta.
    destruct (Car.tick_kind self) eqn:Hk.
    + destruct (tick_charging self time d Hk) as (_ & _ & Ht & _).
      cbn zeta in Ht. rewrite Ht. split; [lra | reflexivity].
    + destruct (tick_driving self time d Hk) as (_ & _ & _ & _ & Ht & _).
      cbn zeta in Ht. rewrite Ht. split; [lra | intro Hlt; lra].
Qed.

(** C6 fails as stated: with a charger of power 0 (and 216 km/h, hourly
    ticks) the first tick is a charging tick and [battery_charge_total]
    stays at 70000. *)
Lemma C6_counterexample :
  let self : Car.t Q := Car.init 1 0 216 in
  Car.tick_kind self = Charging
  /\ Car.battery_charge_total self == 70000
  /\ Car.battery_charge_total (Car.tick self 1 3) == 70000
  /\ ~ Car.battery_charge_total self
       < Car.battery_charge_total (Car.tick self 1 3).
Proof.
  cbn zeta. repeat split; try (vm_compute; reflexivity).
  intro H. vm_compute in H. discriminate.
Qed.

Lemma energy_per_km_driven (self : Car.t Q) :
  0 < Car.distance_driven self ->
  Car.energy_per_km self
  = Some ((Car.battery_charge_total self - Car.battery_charge self)
          / Car.distance_driven self).
Proof.
  intro H. unfold Car.energy_per_km, checked_div. numq.
  destruct (Qeq_bool (Car.distance_driven self) 0) eqn:E; cbn.
  - apply Qeq_bool_iff in E. lra.
  - reflexivity.
Qed.

Lemma truthy_false_iff (a : Q) : truthy a = false <-> a == 0.
Proof.
  numq. rewrite negb_false_iff. apply Qeq_bool_iff.
Qed.

(** C9 (as the code has it).  Computing [energy_per_km] never raises,
    whatever the arithmetic: with nothing driven it is 0 and no division
    takes place, with a positive distance it is
    [(battery_charge_total - battery_charge) / distance_driven].  The rest
    of [status_text] divides by the time factor and by the duration, and
    raises [ZeroDivisionError] exactly when one of the two is zero. *)
Theorem C9_summary_raises_iff_zero :
  (forall (num : Type) (N : Number num) (self : Car.t num) (duration : num),
     (exists v, Car.energy_per_km self = Some v)
     /\ (Car.status_text self duration = None
         <-> truthy (Car.time_factor self) = false
             \/ truthy duration = false))
  /\ (forall (self : Car.t Q) (duration : Q),
        (Car.distance_driven self == 0 -> Car.energy_per_km self = Some 0)
        /\ (0 < Car.distance_driven self ->
            Car.energy_per_km self
            = Some ((Car.battery_charge_total self - Car.battery_charge self)
                    / Car.distance_driven self))
        /\ (Car.status_text self duration = None
            <-> Car.time_factor self == 0 \/ duration == 0)).
Proof.
  split.
  - intros num N self duration. split.
    + rewrite energy_per_km_value. eauto.
    + apply status_text_none_iff.
  - intros self duration. split; [ | split].
    + intro Hz. rewrite energy_per_km_value.
      apply truthy_false_iff in Hz. rewrite Hz. reflexivity.
    + apply energy_per_km_driven.
    + rewrite status_text_none_iff, !truthy_false_iff. reflexivity.
Qed.

(** C9 fails as stated: for a fresh car, a reachable state, [status_text]
    raises when it is given the duration 0, as [start] does for a
    simulation of duration 0; and it raises for any duration when the car
    was built with the time factor 0.  It is the same in binary64. *)
Lemma C9_counterexample :
  Car.Reachable (Car.init 1 21000 70 : Car.t Q)
  /\ Car.status_text (Car.init 1 21000 70 : Car.t Q) 0 = None
  /\ Car.Reachable (Car.init 0 21000 70 : Car.t Q)
  /\ Car.status_text (Car.init 0 21000 70 : Car.t Q) 24 = None
  /\ Car.status_text
       (Car.init (lit 1) (lit 21000) (lit 70) : Car.t float) (lit 0)
     = None.
Proof.
  split; [constructor | split; [vm_compute; reflexivity | ]].
  split; [constructor | split; vm_compute; reflexivity].
Qed.

(** ** Bookkeeping along a sequence of ticks *)

Lemma ticks_total (calls : list (Z * Q)) : forall self : Car.t Q,
  Car.battery_charge_total (Car.ticks self calls)
  == Car.battery_charge_total self
     + inject_Z (Z.of_nat (count_charging (Car.kinds self calls)))
       * Car.charge_speed_per_tick self.
Proof.
  unfold count_charging.
  induction calls as [ | [time d] rest IH]; intro self; cbn.
  - ring.
  - rewrite IH.
    destruct (tick_constants self time d) as (_ & _ & _ & Hr & _).
    cbn zeta in Hr. rewrite Hr.
    destruct (Car.tick_kind self) eqn:Hk; cbn [Car.is_charging_kind length].
    + destruct (tick_charging self time d Hk) as (_ & _ & Ht & _).
      cbn zeta in Ht. rewrite Ht, inject_nat_succ. ring.
    + destruct (tick_driving self time d Hk) as (_ & _ & _ & _ & Ht & _).
      cbn zeta in Ht. rewrite Ht. reflexivity.
Qed.

Lemma ticks_consumed (calls : list (Z * Q)) : forall self : Car.t Q,
  Car.battery_charge_total (Car.ticks self calls)
  - Car.battery_charge (Car.ticks self calls)
  == Car.battery_charge_total self - Car.battery_charge self
     + inject_Z (Z.of_nat (count_driving (Car.kinds self calls)))
       * Car.energy_usage_per_tick self.
Proof.
  unfold count_driving.
  induction calls as [ | [time d] rest IH]; intro self; cbn.
  - ring.
  - rewrite IH.
    destruct (tick_constants self time d) as (_ & _ & He & _ & _).
    cbn zeta in He. rewrite He.
    destruct (Car.tick_kind self) eqn:Hk;
      cbn [Car.is_charging_kind negb length].
    + destruct (tick_charging self time d Hk) as (Hb & _ & Ht & _).
      cbn zeta in Hb, Ht. rewrite Hb, Ht. ring.
    + destruct (tick_driving self time d Hk) as (_ & _ & Hb & _ & Ht & _).
      cbn zeta in Hb, Ht. rewrite Hb, Ht, inject_nat_succ. ring.
Qed.

Lemma ticks_distance (calls : list (Z * Q)) : forall self : Car.t Q,
  Car.distance_driven (Car.ticks self calls)
  == Car.distance_driven self
     + inject_Z (Z.of_nat (count_driving (Car.kinds self calls)))
       * Car.distance_per_tick self.
Proof.
  unfold count_driving.
  induction calls as [ | [time d] rest IH]; intro self; cbn.
  - ring.
  - rewrite IH.
    destruct (tick_constants self time d) as (_ & _ & _ & _ & Hp).
    cbn zeta in Hp. rewrite Hp.
    destruct (Car.tick_kind self) eqn:Hk;
      cbn [Car.is_charging_kind negb length].
    + destruct (tick_charging self time d Hk) as (_ & Hx & _).
      cbn zeta in Hx. rewrite Hx. reflexivity.
    + destruct (tick_driving self time d Hk) as (_ & _ & _ & Hx & _).
      cbn zeta in Hx. rewrite Hx, inject_nat_succ. ring.
Qed.

(** C3 (as the code has it).  [battery_charge_total] starts at the full
    battery, 70000, not at 0: after any sequence of ticks on a fresh car,
    and whatever the arithmetic, it is 70000 with
    [charge_speed_per_tick] added to it once for every charging tick. *)
Theorem C3_total_is_capacity_plus_charged
  (num : Type) (N : Number num) (tf cs dph : num) (calls : list (Z * num)) :
  let car0 := Car.init tf cs dph in
  let self := Car.ticks car0 calls in
  Car.battery_charge_total car0 = lit 70000
  /\ Car.battery_capacity self = lit 70000
  /\ Car.battery_charge_total self
     = add_times (count_charging (Car.kinds car0 calls))
         (Car.charge_speed_per_tick self) (Car.battery_capacity self).
Proof.
  cbn zeta.
  destruct (ticks_constants calls (Car.init tf cs dph)) as (_ & Hc & _ & Hr & _).
  cbn zeta in Hc, Hr. rewrite ticks_total_sum, Hc, Hr.
  repeat split.
Qed.

(** C3 fails as stated: a fresh car has run no charging tick, yet its
    [battery_charge_total] is 70000 rather than 0 charging ticks times the
    charge per tick. *)
Lemma C3_counterexample :
  let car0 : Car.t Q := Car.init 1 21000 70 in
  Car.Reachable car0
  /\ count_charging (Car.kinds car0 []) = 0%nat
  /\ ~ Car.battery_charge_total car0
       == inject_Z (Z.of_nat (count_charging (Car.kinds car0 [])))
          * Car.charge_speed_per_tick car0.
Proof.
  cbn zeta. split; [constructor | split; [reflexivity | ]].
  cbn. intro H. vm_compute in H. discriminate.
Qed.



(** ** Closed forms at the exact rationals *)

(** At the exact rationals the repeated additions have closed forms;
    binary64 keeps them only up to rounding. *)
Lemma exact_energy_drawn (tf cs dph : Q) (calls : list (Z * Q)) :
  let car0 := Car.init tf cs dph in
  let self := Car.ticks car0 calls in
  let driven := inject_Z (Z.of_nat (count_driving (Car.kinds car0 calls))) in
  let charged := inject_Z (Z.of_nat (count_charging (Car.kinds car0 calls))) in
  Car.battery_charge_total self
  == 70000 + charged * Car.charge_speed_per_tick car0
  /\ Car.battery_charge_total self - Car.battery_charge self
     == driven * Car.energy_usage_per_tick car0
  /\ Car.distance_driven self == driven * Car.distance_per_tick car0.
Proof.
  cbn zeta. split; [ | split].
  - rewrite ticks_total. reflexivity.
  - rewrite ticks_consumed.
    change (Car.battery_charge_total (Car.init tf cs dph)) with 70000.
    change (Car.battery_charge (Car.init tf cs dph)) with 70000. ring.
  - rewrite ticks_distance.
    change (Car.distance_driven (Car.init tf cs dph)) with 0. ring.
Qed.

(** ** The loop *)

Lemma is_done_iff (self : Simulation.t Q) :
  Simulation.is_done self = true
  <-> Simulation.duration self < inject_Z (Simulation.time self).
Proof. apply (gtb_spec (inject_Z (Simulation.time self))). Qed.

(** With [n] ticks left before the horizon, the loop stops after exactly
    [n] iterations, given fuel for its [n + 1] tests. *)
Lemma loop_runs (n : nat) : forall (self : Simulation.t Q) (fuel : nat),
  Simulation.duration self
  == inject_Z (Simulation.time self) + inject_Z (Z.of_nat n) - 1 ->
  (n < fuel)%nat ->
  Simulation.loop fuel self
  = Some (Simulation.mk
            (Simulation.time self + Z.of_nat n)
            (Simulation.time_factor self)
            (Simulation.duration self)
            (Car.ticks (Simulation.car self)
               (calls_from (Simulation.time self) n
                  (Simulation.duration self)))).
Proof.
  induction n as [ | n IH]; intros self fuel Hd Hf;
    (destruct fuel as [ | fuel]; [lia | ]); cbn [Simulation.loop].
  - assert (E : Simulation.is_done self = true).
    { apply is_done_iff. rewrite Hd.
      change (inject_Z (Z.of_nat 0)) with 0. lra. }
    rewrite E. destruct self as [t f d c]. cbn. rewrite Z.add_0_r. reflexivity.
  - assert (E : Simulation.is_done self = false).
    { destruct (Simulation.is_done self) eqn:E'; [ | reflexivity].
      apply is_done_iff in E'. rewrite Hd, inject_nat_succ in E'.
      assert (0 <= inject_Z (Z.of_nat n)).
      { change 0 with (inject_Z 0). rewrite <- Zle_Qle. lia. }
      lra. }
    rewrite E, IH.
    + destruct self as [t f d c]. cbn. f_equal. f_equal. lia.
    + destruct self as [t f d c]. unfold Simulation.tick.
      cbn [Simulation.duration Simulation.time] in *.
      rewrite Hd, inject_nat_succ, inject_Z_plus. ring.
    + lia.
Qed.

Lemma start_runs (N : Z) (tf : Q) (car0 : Car.t Q) (fuel : nat) :
  (0 <= N)%Z -> (Z.to_nat N < fuel)%nat ->
  Simulation.loop fuel (Simulation.init tf (inject_Z N) car0)
  = Some (Simulation.mk (1 + N) tf (inject_Z N)
            (Car.ticks car0 (calls_from 1 (Z.to_nat N) (inject_Z N)))).
Proof.
  intros HN Hf. rewrite (loop_runs (Z.to_nat N)).
  - cbn [Simulation.init Simulation.time Simulation.time_factor
         Simulation.duration Simulation.car].
    rewrite Z2Nat.id by exact HN. reflexivity.
  - cbn [Simulation.init Simulation.time Simulation.duration].
    rewrite Z2Nat.id by exact HN. ring.
  - exact Hf.
Qed.

(** C4. Every tick appends one sample to each of the three histories,
    whichever branch it takes (and whatever the arithmetic); and for an
    integer horizon [N >= 0] the
    loop of a fresh simulation terminates with exactly [N] samples in each
    history, the recorded tick indices being [1; 2; ...; N] in that
    order. *)
Theorem C4_history_one_entry_per_tick :
  (forall (num : Type) (N : Number num)
          (self : Car.t num) (time : Z) (total_duration : num),
     let self' := Car.tick self time total_duration in
     Car.time_history self' = Car.time_history self ++ [time]
     /\ Car.charge_level_history self'
        = Car.charge_level_history self ++ [Car.battery_charge self']
     /\ Car.distance_driven_history self'
        = Car.distance_driven_history self ++ [Car.distance_driven self'])
  /\ (forall (N : Z) (tf cs dph : Q) (fuel : nat),
        (0 <= N)%Z -> (Z.to_nat N < fuel)%nat ->
        exists final,
          Simulation.loop fuel
            (Simulation.init tf (inject_Z N) (Car.init tf cs dph))
          = Some final
          /\ Simulation.time final = (N + 1)%Z
          /\ Car.time_history (Simulation.car final) = indices (Z.to_nat N)
          /\ length (Car.time_history (Simulation.car final)) = Z.to_nat N
          /\ length (Car.charge_level_history (Simulation.car final))
             = Z.to_nat N
          /\ length (Car.distance_driven_history (Simulation.car final))
             = Z.to_nat N).
Proof.
  split; [intros num N; apply tick_histories | ].
  intros N tf cs dph fuel HN Hf.
  eexists. split; [apply start_runs; assumption | ].
  cbn [Simulation.time Simulation.car].
  assert (Ht : Car.time_history
                 (Car.ticks (Car.init tf cs dph)
                    (calls_from 1 (Z.to_nat N) (inject_Z N)))
               = indices (Z.to_nat N)).
  { rewrite ticks_time_history, calls_from_indices. reflexivity. }
  destruct (ticks_history_lengths
              (calls_from 1 (Z.to_nat N) (inject_Z N)) (Car.init tf cs dph))
    as (Hc & Hx).
  rewrite calls_from_length in Hc, Hx.
  repeat split; try assumption.
  - lia.
  - rewrite Ht. unfold indices. rewrite length_map, length_seq. reflexivity.
Qed.

(** ** Charging stops *)

(** A charging tick that is not the last one and ends with the flag clear
    leaves enough in the battery for the next tick to drive, as long as a
    full battery carries the car for one tick. *)
Lemma charged_enough_to_drive
  (self : Car.t Q) (time : Z) (d : Q) (n : nat) :
  Car.tick_kind self = Charging ->
  0 <= Car.energy_usage_per_tick self ->
  Car.energy_usage_per_tick self + Car.charge_speed_per_tick self
  <= Car.battery_capacity self ->
  d == inject_Z time + inject_Z (Z.of_nat n) ->
  (0 < n)%nat ->
  let self' := Car.tick self time d in
  Car.charging self' = false ->
  0 < Car.battery_charge self' - Car.energy_usage_per_tick self'.
Proof.
  intros Hk He Hcap Hd Hn self' Hflag.
  destruct (tick_charging self time d Hk) as (_ & _ & _ & _ & Hf).
  destruct (tick_constants self time d) as (_ & Hc & He' & Hr & _).
  cbn zeta in Hf, Hc, He', Hr. fold self' in Hf, Hc, He', Hr.
  rewrite Hflag in Hf. symmetry in Hf.
  apply negb_false_iff, orb_true_iff in Hf.
  unfold Car.is_fully_charged, Car.is_sufficiently_charged in Hf.
  rewrite !gtb_spec, Hc, He', Hr in Hf. rewrite He'. numq.
  destruct Hf as [Hfull | Hsuff]; [lra | ].
  pose proof (inject_nat_pos n Hn) as H1.
  assert (Hm : 0 <= (inject_Z (Z.of_nat n) - 1)
                    * Car.energy_usage_per_tick self)
    by (apply Qmult_le_0_compat; lra).
  assert (Hs : (d - inject_Z time) * Car.energy_usage_per_tick self
               == (inject_Z (Z.of_nat n) - 1)
                  * Car.energy_usage_per_tick self
                  + Car.energy_usage_per_tick self)
    by (rewrite Hd; ring).
  rewrite Hs in Hsuff. lra.
Qed.

Lemma stops_runs (n : nat) :
  forall (self : Car.t Q) (time : Z) (d : Q) (prev : bool),
  d == inject_Z time + inject_Z (Z.of_nat n) - 1 ->
  0 <= Car.energy_usage_per_tick self ->
  Car.energy_usage_per_tick self + Car.charge_speed_per_tick self
  <= Car.battery_capacity self ->
  (prev = false -> Car.charging self = false) ->
  (prev = true -> Car.charging self = false -> (0 < n)%nat ->
   0 < Car.battery_charge self - Car.energy_usage_per_tick self) ->
  Car.number_of_charging_stops (Car.ticks self (calls_from time n d))
  = (Car.number_of_charging_stops self
     + charging_runs prev (Car.kinds self (calls_from time n d)))%Z.
Proof.
  induction n as [ | n IH]; intros self time d prev Hd He Hcap Hp0 Hp1.
  - cbn. lia.
  - cbn [calls_from Car.ticks Car.kinds].
    destruct (tick_constants self time d) as (_ & Hc & He' & Hr & _).
    cbn zeta in Hc, He', Hr.
    assert (Hd' : d == inject_Z (time + 1) + inject_Z (Z.of_nat n) - 1)
      by (rewrite Hd, inject_nat_succ, inject_Z_plus; ring).
    assert (Hd'' : d == inject_Z time + inject_Z (Z.of_nat n))
      by (rewrite Hd, inject_nat_succ; ring).
    destruct (Car.tick_kind self) eqn:Hk.
    + rewrite (IH (Car.tick self time d) (time + 1)%Z d true Hd');
        try (rewrite ?He', ?Hr, ?Hc; assumption); try discriminate.
      * destruct (tick_charging self time d Hk) as (_ & _ & _ & Hs & _).
        cbn zeta in Hs. rewrite Hs. cbn [charging_runs].
        assert (Hsame : Car.charging self = prev).
        { destruct prev; [ | auto].
          destruct (Car.charging self) eqn:Ef; [reflexivity | exfalso].
          assert (Hpos := Hp1 eq_refl eq_refl (Nat.lt_0_succ n)).
          apply tick_kind_charging_iff in Hk.
          destruct Hk as [Hk | Hk]; [congruence | lra]. }
        rewrite Hsame. lia.
      * intros _ Hflag Hn.
        exact (charged_enough_to_drive self time d n Hk He Hcap Hd'' Hn Hflag).
    + destruct (tick_driving self time d Hk) as (_ & Hf' & _ & _ & _ & Hs).
      cbn zeta in Hf', Hs.
      rewrite (IH (Car.tick self time d) (time + 1)%Z d false Hd');
        try (rewrite ?He', ?Hr, ?Hc; assumption); try discriminate.
      * rewrite Hs. reflexivity.
      * intros _. exact Hf'.
Qed.

(** C5 (as the code has it).  In every run, whatever the arithmetic,
    [number_of_charging_stops] counts the charging ticks that start with
    the charging flag clear.  In a complete run over an integer horizon
    [N >= 0], with [0 <= energy_usage_per_tick] and
    [energy_usage_per_tick + charge_speed_per_tick <= battery_capacity],
    that is the number of maximal contiguous runs of charging ticks of
    the run. *)
Theorem C5_stops_equal_runs :
  (forall (num : Type) (N : Number num)
          (self : Car.t num) (calls : list (Z * num)),
     Car.number_of_charging_stops (Car.ticks self calls)
     = (Car.number_of_charging_stops self + sessions_entered self calls)%Z)
  /\ (forall (N : Z) (tf cs dph : Q) (fuel : nat),
        (0 <= N)%Z ->
        (Z.to_nat N < fuel)%nat ->
        0 <= Car.energy_usage_per_tick (Car.init tf cs dph) ->
        Car.energy_usage_per_tick (Car.init tf cs dph)
        + Car.charge_speed_per_tick (Car.init tf cs dph)
        <= Car.battery_capacity (Car.init tf cs dph) ->
        exists final,
          Simulation.loop fuel
            (Simulation.init tf (inject_Z N) (Car.init tf cs dph))
          = Some final
          /\ Car.number_of_charging_stops (Simulation.car final)
             = sessions_entered (Car.init tf cs dph)
                 (calls_from 1 (Z.to_nat N) (inject_Z N))
          /\ Car.number_of_charging_stops (Simulation.car final)
             = charging_runs false
                 (Car.kinds (Car.init tf cs dph)
                    (calls_from 1 (Z.to_nat N) (inject_Z N)))).
Proof.
  split; [intros num N self calls; apply stops_sessions | ].
  intros N tf cs dph fuel HN Hf He Hcap.
  eexists. split; [apply start_runs; assumption | ].
  cbn [Simulation.car]. split.
  - rewrite stops_sessions. reflexivity.
  - rewrite (stops_runs (Z.to_nat N) _ 1%Z (inject_Z N) false);
      try assumption; try discriminate.
    + reflexivity.
    + rewrite Z2Nat.id by exact HN. ring.
    + reflexivity.
Qed.

(** C5 fails as stated: at 216 km/h with hourly ticks one tick of driving
    needs more than a full battery.  In a three-tick run the first two
    ticks are charging ticks, each ending with the flag clear, and the
    third drives: one contiguous run of charging ticks, and a counter that
    ends at 2. *)
Lemma C5_counterexample :
  let car0 := Car.init 1 21000 216 in
  Car.kinds car0 (calls_from 1 3 3) = [Charging; Charging; Driving]
  /\ charging_runs false (Car.kinds car0 (calls_from 1 3 3)) = 1%Z
  /\ option_map (fun final => Car.number_of_charging_stops (Simulation.car final))
       (Simulation.loop 4 (Simulation.init 1 3 car0))
     = Some 2%Z.
Proof. cbn zeta. repeat split; vm_compute; reflexivity. Qed.

(** ** The battery bound *)

Lemma battery_bound_invariant (self : Car.t Q) :
  Car.Reachable self ->
  0 <= Car.charge_speed_per_tick self ->
  0 <= Car.energy_usage_per_tick self ->
  Car.energy_usage_per_tick self <= Car.battery_capacity self ->
  Car.battery_charge self
  <= Car.battery_capacity self + Car.charge_speed_per_tick self
  /\ (Car.charging self = true ->
      Car.battery_charge self + Car.charge_speed_per_tick self
      <= Car.battery_capacity self).
Proof.
  induction 1 as [tf cs dph | self time d _ IH]; intros Hr He Hcap.
  - cbn [Car.init Car.battery_charge Car.battery_capacity Car.charging
         Car.charge_speed_per_tick] in *.
    split; [lra | discriminate].
  - destruct (tick_constants self time d) as (_ & Hc & He' & Hr' & _).
    cbn zeta in Hc, He', Hr'. rewrite Hc, He', Hr' in *.
    destruct (IH Hr He Hcap) as [Hb Hflag].
    destruct (Car.tick_kind self) eqn:Hk.
    + destruct (tick_charging self time d Hk) as (Hq & _ & _ & _ & Hf).
      cbn zeta in Hq, Hf.
      assert (Hpre : Car.battery_charge self <= Car.battery_capacity self).
      { apply tick_kind_charging_iff in Hk. destruct Hk as [Hk | Hk].
        - specialize (Hflag Hk). lra.
        - lra. }
      split; [rewrite Hq; lra | ].
      intro Hon. rewrite Hon in Hf. symmetry in Hf.
      apply negb_true_iff, orb_false_iff in Hf. destruct Hf as [Hfull _].
      unfold Car.is_fully_charged in Hfull. rewrite Hc, Hr' in Hfull.
      change (Car.battery_charge (Car.tick self time d)
              + Car.charge_speed_per_tick self)%num
        with (Car.battery_charge (Car.tick self time d)
              + Car.charge_speed_per_tick self) in Hfull.
      destruct (Qlt_le_dec (Car.battery_capacity self)
                  (Car.battery_charge (Car.tick self time d)
                   + Car.charge_speed_per_tick self)) as [Hlt | Hle];
        [ | exact Hle].
      apply gtb_spec in Hlt. congruence.
    + destruct (tick_driving self time d Hk) as (_ & Hoff & Hq & _).
      cbn zeta in Hoff, Hq.
      split; [rewrite Hq; lra | ]. congruence.
Qed.

(** C7 (as the code has it).  When the charge added per tick is not
    negative and one tick of driving needs between 0 and a full battery
    ([0 <= energy_usage_per_tick <= battery_capacity]), every reachable
    state has
    [battery_charge <= battery_capacity + charge_speed_per_tick]. *)
Theorem C7_battery_overshoot_bound (self : Car.t Q) :
  Car.Reachable self ->
  0 <= Car.charge_speed_per_tick self ->
  0 <= Car.energy_usage_per_tick self ->
  Car.energy_usage_per_tick self <= Car.battery_capacity self ->
  Car.battery_charge self
  <= Car.battery_capacity self + Car.charge_speed_per_tick self.
Proof.
  intros H Hr He Hcap. apply (battery_bound_invariant self H Hr He Hcap).
Qed.

(** C7 fails as stated: at 216 km/h with hourly ticks the car charges on
    its first two ticks, each ending with the flag clear, and after the
    second the battery holds 112000 against a bound of 70000 + 21000. *)
Lemma C7_counterexample :
  let self := Car.tick (Car.tick (Car.init 1 21000 216) 1 3) 2 3 in
  Car.Reachable self
  /\ Car.battery_charge self == 112000
  /\ Car.battery_capacity self + Car.charge_speed_per_tick self == 91000
  /\ ~ Car.battery_charge self
       <= Car.battery_capacity self + Car.charge_speed_per_tick self.
Proof.
  cbn zeta. split; [repeat constructor | ].
  split; [vm_compute; reflexivity | split; [vm_compute; reflexivity | ]].
  intro H. vm_compute in H. apply H. reflexivity.
Qed.

(** ** The claims at concrete inputs *)

Lemma C1_tick_policy_witness :
  let self : Car.t Q := Car.init 1 21000 70 in
  ~ (Car.charging self = true
     \/ Car.battery_charge self - Car.energy_usage_per_tick self <= 0)
  /\ Car.battery_charge (Car.tick self 1 5)
     = Car.battery_charge self - Car.energy_usage_per_tick self.
Proof.
  cbn zeta.
  assert (H : ~ (Car.charging (Car.init 1 21000 70) = true
                 \/ Car.battery_charge (Car.init 1 21000 70)
                    - Car.energy_usage_per_tick (Car.init 1 21000 70) <= 0)).
  { intros [H | H]; [discriminate | ]. vm_compute in H. apply H. reflexivity. }
  split; [exact H | ].
  destruct (C1_tick_policy (Car.init 1 21000 70) 1 5) as (_ & _ & _ & Hd).
  apply Hd. exact H.
Defined.

Lemma C2_charge_stop_conditions_witness :
  let self : Car.t Q := Car.init 1 21000 216 in
  Car.tick_kind self = Charging
  /\ Car.battery_charge (Car.tick self 1 3) == 91000
  /\ Car.charging (Car.tick self 1 3) = false.
Proof.
  cbn zeta.
  assert (Hk : Car.tick_kind (Car.init 1 21000 216 : Car.t Q) = Charging)
    by (vm_compute; reflexivity).
  destruct (C2_charge_stop_conditions (Car.init 1 21000 216) 1 3 Hk)
    as (Hb & Hoff & _).
  split; [exact Hk | split].
  - rewrite Hb. q_eval.
  - apply Hoff. left. q_eval.
Defined.

Lemma C4_history_one_entry_per_tick_witness :
  (0 <= 3)%Z /\ (Z.to_nat 3 < 4)%nat
  /\ exists final,
       Simulation.loop 4 (Simulation.init 1 (inject_Z 3) (Car.init 1 21000 70))
       = Some final
       /\ Car.time_history (Simulation.car final) = [1; 2; 3]%Z
       /\ length (Car.charge_level_history (Simulation.car final)) = 3%nat.
Proof.
  assert (H0 : (0 <= 3)%Z) by lia.
  assert (H1 : (Z.to_nat 3 < 4)%nat) by (cbn; lia).
  split; [exact H0 | split; [exact H1 | ]].
  destruct (proj2 C4_history_one_entry_per_tick 3%Z 1 21000 70 4%nat H0 H1)
    as (final & Hl & _ & Ht & _ & Hc & _).
  exists final. split; [exact Hl | split; [exact Ht | exact Hc]].
Defined.

Lemma C3_total_is_capacity_plus_charged_witness :
  let car0 : Car.t float := Car.init (lit 1) (lit 21000) (lit 216) in
  let calls := calls_from 1 3 (lit 3) in
  count_charging (Car.kinds car0 calls) = 2%nat
  /\ Car.battery_charge_total (Car.ticks car0 calls)
     = add_times 2 (lit 21000) (lit 70000)
  /\ add_times 2 (lit 21000) (lit 70000) = 112000%float.
Proof.
  cbn zeta.
  destruct (C3_total_is_capacity_plus_charged float NumF64
              (lit 1) (lit 21000) (lit 216) (calls_from 1 3 (lit 3)))
    as (_ & _ & Ht).
  cbn zeta in Ht.
  split; [vm_compute; reflexivity | split; [ | vm_compute; reflexivity]].
  rewrite Ht. vm_compute. reflexivity.
Defined.

Lemma C5_stops_equal_runs_witness :
  let car0 : Car.t Q := Car.init 1 21000 100 in
  (0 <= 24)%Z /\ (Z.to_nat 24 < 25)%nat
  /\ 0 <= Car.energy_usage_per_tick car0
  /\ Car.energy_usage_per_tick car0 + Car.charge_speed_per_tick car0
     <= Car.battery_capacity car0
  /\ exists final,
       Simulation.loop 25 (Simulation.init 1 (inject_Z 24) car0) = Some final
       /\ Car.number_of_charging_stops (Simulation.car final) = 4%Z
       /\ charging_runs false
            (Car.kinds car0 (calls_from 1 (Z.to_nat 24) (inject_Z 24)))
          = 4%Z.
Proof.
  cbn zeta.
  assert (H0 : (0 <= 24)%Z) by lia.
  assert (H1 : (Z.to_nat 24 < 25)%nat) by (cbn; lia).
  assert (H2 : 0 <= Car.energy_usage_per_tick (Car.init 1 21000 100))
    by q_eval.
  assert (H3 : Car.energy_usage_per_tick (Car.init 1 21000 100)
               + Car.charge_speed_per_tick (Car.init 1 21000 100)
               <= Car.battery_capacity (Car.init 1 21000 100)) by q_eval.
  repeat (split; [assumption | ]).
  destruct (proj2 C5_stops_equal_runs 24%Z 1 21000 100 25%nat H0 H1 H2 H3)
    as (final & Hl & _ & Hr).
  exists final. split; [exact Hl | ].
  assert (H4 : charging_runs false
                 (Car.kinds (Car.init 1 21000 100 : Car.t Q)
                    (calls_from 1 (Z.to_nat 24) (inject_Z 24))) = 4%Z)
    by (vm_compute; reflexivity).
  split; [rewrite Hr; exact H4 | exact H4].
Defined.

Lemma C6_total_monotone_witness :
  let self : Car.t Q := Car.init 1 21000 216 in
  Car.Reachable self
  /\ 0 <= Car.charge_speed_per_tick self
  /\ Car.tick_kind self = Charging
  /\ Car.battery_charge_total self
     <= Car.battery_charge_total (Car.tick self 1 3)
  /\ Car.battery_charge_total (Car.tick self 1 3)
     = Car.battery_charge_total self + Car.charge_speed_per_tick self.
Proof.
  cbn zeta.
  assert (H0 : Car.Reachable (Car.init 1 21000 216 : Car.t Q))
    by constructor.
  assert (Hr : 0 <= Car.charge_speed_per_tick (Car.init 1 21000 216))
    by q_eval.
  assert (Hk : Car.tick_kind (Car.init 1 21000 216 : Car.t Q) = Charging)
    by (vm_compute; reflexivity).
  destruct C6_total_monotone as (Hany & Hrat).
  split; [exact H0 | split; [exact Hr | split; [exact Hk | split]]].
  - apply (Hrat (Car.init 1 21000 216) 1%Z 3 H0 Hr).
  - apply (Hany Q NumQ (Car.init 1 21000 216) 1%Z 3). exact Hk.
Defined.

(** The car of this run charges at tick 5 although it holds 65917 of its
    70000, and ends the tick above its capacity. *)
Lemma C7_battery_overshoot_bound_witness :
  let self : Car.t Q :=
    Car.ticks (Car.init 1 21000 190) (calls_from 1 5 24) in
  Car.Reachable self
  /\ 0 <= Car.charge_speed_per_tick self
  /\ 0 <= Car.energy_usage_per_tick self
  /\ Car.energy_usage_per_tick self <= Car.battery_capacity self
  /\ Car.battery_capacity self < Car.battery_charge self
  /\ Car.battery_charge self
     <= Car.battery_capacity self + Car.charge_speed_per_tick self.
Proof.
  cbn zeta.
  set (self := Car.ticks (Car.init 1 21000 190 : Car.t Q)
                 (calls_from 1 5 24)).
  assert (H0 : Car.Reachable self)
    by (apply reachable_ticks; constructor).
  assert (H1 : 0 <= Car.charge_speed_per_tick self) by q_eval.
  assert (H2 : 0 <= Car.energy_usage_per_tick self) by q_eval.
  assert (H3 : Car.energy_usage_per_tick self <= Car.battery_capacity self)
    by q_eval.
  assert (H4 : Car.battery_capacity self < Car.battery_charge self)
    by q_eval.
  repeat (split; [assumption | ]).
  exact (C7_battery_overshoot_bound self H0 H1 H2 H3).
Defined.

Lemma C9_summary_raises_iff_zero_witness :
  let self : Car.t Q := Car.tick (Car.init 1 21000 70) 1 5 in
  0 < Car.distance_driven self
  /\ Car.energy_per_km self
     = Some ((Car.battery_charge_total self - Car.battery_charge self)
             / Car.distance_driven self)
  /\ Car.distance_driven (Car.init 1 21000 70) == 0
  /\ Car.energy_per_km (Car.init 1 21000 70) = Some 0
  /\ Car.status_text self 0 = None.
Proof.
  cbn zeta.
  assert (H : 0 < Car.distance_driven (Car.tick (Car.init 1 21000 70) 1 5))
    by q_eval.
  assert (H0 : Car.distance_driven (Car.init 1 21000 70) == 0) by q_eval.
  destruct C9_summary_raises_iff_zero as (_ & Hrat).
  split; [exact H | split; [ | split; [exact H0 | split]]].
  - apply (Hrat (Car.tick (Car.init 1 21000 70) 1 5) 0). exact H.
  - apply (Hrat (Car.init 1 21000 70) 0). exact H0.
  - apply (Hrat (Car.tick (Car.init 1 21000 70) 1 5) 0). right. reflexivity.
Defined.


(** ** The same runs in binary64 *)

(** The inputs used against C5 and C7 take the same branches when the
    program computes in binary64. *)
#[warnings="-inexact-float"]
Example pathological_run_binary64 :
  let car0 : Car.t float := Car.init (lit 1) (lit 21000) (lit 216) in
  let self := Car.ticks car0 (calls_from 1 3 (lit 3)) in
  Car.kinds car0 (calls_from 1 3 (lit 3)) = [Charging; Charging; Driving]
  /\ Car.number_of_charging_stops self = 2%Z
  /\ Car.charge_level_history self
     = [91000; 112000; 17934.268063799987]%float.
Proof. cbn zeta. repeat split; vm_compute; reflexivity. Qed.

(** A positive charge per tick need not move [battery_charge_total] in
    binary64: with a charger of 2^-40 W and hourly ticks the first tick is
    a charging tick and leaves the total at 70000. *)
Example small_charge_absorbed_binary64 :
  let self : Car.t float := Car.init (lit 1) 0x1p-40%float (lit 216) in
  gtb (Car.charge_speed_per_tick self) (lit 0) = true
  /\ Car.tick_kind self = Charging
  /\ Car.battery_charge_total (Car.tick self 1 (lit 3)) = 70000%float.
Proof. cbn zeta. repeat split; vm_compute; reflexivity. Qed.

(** * Further properties of the code *)

(** ** The physics function *)

(** [power_for_velocity] is a cubic without square term and with positive
    coefficients. *)
Lemma power_cubic (v : Q) :
  power_for_velocity v
  == cw_a * roh / 2 * (v * v * v) + force_roll_resistance * v + 1000.
Proof.
  unfold power_for_velocity, force_air, power_standby. numq. field.
Qed.

Lemma power_coefficients_positive :
  0 < (cw_a * roh / 2 : Q) /\ 0 < (force_roll_resistance : Q).
Proof. split; vm_compute; reflexivity. Qed.

Lemma power_lower_bound (v : Q) :
  0 <= v ->
  1000 <= power_for_velocity v /\ (0 < v -> 1000 < power_for_velocity v).
Proof.
  intro Hv. rewrite power_cubic.
  destruct power_coefficients_positive as [Ha Hb].
  set (a := (cw_a * roh / 2 : Q)) in *.
  set (b := (force_roll_resistance : Q)) in *.
  assert (H3 : 0 <= v * v * v)
    by (repeat apply Qmult_le_0_compat; assumption).
  assert (Ha3 : 0 <= a * (v * v * v))
    by (apply Qmult_le_0_compat; lra).
  split.
  - assert (Hbv : 0 <= b * v) by (apply Qmult_le_0_compat; lra). lra.
  - intro Hpos.
    assert (Hbv : 0 < b * v) by (apply Qmult_lt_0_compat; assumption). lra.
Qed.

(** The power needed is never below the standby power when the car does
    not move backwards. *)
Theorem power_at_least_standby (v : Q) :
  0 <= v -> 1000 <= power_for_velocity v.
Proof. intro Hv. apply (power_lower_bound v Hv). Qed.

Lemma power_at_least_standby_witness :
  0 <= 100 / 3.6 /\ 1000 <= power_for_velocity (100 / 3.6 : Q).
Proof.
  assert (H : 0 <= 100 / 3.6) by q_eval.
  split; [exact H | exact (power_at_least_standby _ H)].
Defined.

(** Driving faster never needs less power. *)
Theorem power_monotone (u v : Q) :
  0 <= u -> u <= v -> power_for_velocity u <= power_for_velocity v.
Proof.
  intros Hu Huv. rewrite !power_cubic.
  destruct power_coefficients_positive as [Ha Hb].
  set (a := (cw_a * roh / 2 : Q)) in *.
  set (b := (force_roll_resistance : Q)) in *.
  assert (Hsq : 0 <= v * v + u * v + u * u).
  { assert (0 <= v * v) by (apply Qmult_le_0_compat; lra).
    assert (0 <= u * v) by (apply Qmult_le_0_compat; lra).
    assert (0 <= u * u) by (apply Qmult_le_0_compat; lra). lra. }
  assert (Hf : 0 <= a * (v * v + u * v + u * u) + b).
  { assert (0 <= a * (v * v + u * v + u * u))
      by (apply Qmult_le_0_compat; lra). lra. }
  assert (Hp : 0 <= (v - u) * (a * (v * v + u * v + u * u) + b))
    by (apply Qmult_le_0_compat; lra).
  assert (He : a * (v * v * v) + b * v + 1000
               - (a * (u * u * u) + b * u + 1000)
               == (v - u) * (a * (v * v + u * v + u * u) + b)) by ring.
  lra.
Qed.

Lemma power_monotone_witness :
  0 <= 70 / 3.6 /\ 70 / 3.6 <= 100 / 3.6
  /\ power_for_velocity (70 / 3.6 : Q) <= power_for_velocity (100 / 3.6).
Proof.
  assert (H0 : 0 <= 70 / 3.6) by q_eval.
  assert (H1 : 70 / 3.6 <= 100 / 3.6) by q_eval.
  split; [exact H0 | split; [exact H1 | ]].
  exact (power_monotone _ _ H0 H1).
Defined.

(** ** The construction of a car *)

(** With a positive time factor and a speed that is not negative, a tick
    of driving uses a positive amount of energy, at least the standby
    share [1000 * time_factor]. *)
Theorem init_energy_positive (tf cs dph : Q) :
  0 < tf -> 0 <= dph ->
  1000 * tf <= Car.energy_usage_per_tick (Car.init tf cs dph)
  /\ 0 < Car.energy_usage_per_tick (Car.init tf cs dph)
  /\ 0 <= Car.distance_per_tick (Car.init tf cs dph).
Proof.
  intros Htf Hv.
  cbn [Car.init Car.energy_usage_per_tick Car.distance_per_tick]. numq.
  assert (Hv' : 0 <= dph / 3.6).
  { unfold Qdiv. apply Qmult_le_0_compat; [exact Hv | q_eval]. }
  destruct (power_lower_bound (dph / 3.6) Hv') as [Hp _].
  assert (Hm : 0 <= (power_for_velocity (dph / 3.6) - 1000) * tf)
    by (apply Qmult_le_0_compat; lra).
  assert (Hd : 0 <= dph * tf) by (apply Qmult_le_0_compat; lra).
  set (p := power_for_velocity (dph / 3.6)) in *.
  repeat split; try assumption; nra.
Qed.

Lemma init_energy_positive_witness :
  0 < 1 / 60 /\ 0 <= 70
  /\ 0 < Car.energy_usage_per_tick (Car.init (1 / 60) 21000 70 : Car.t Q).
Proof.
  assert (H0 : 0 < 1 / 60) by q_eval.
  assert (H1 : 0 <= 70) by q_eval.
  split; [exact H0 | split; [exact H1 | ]].
  apply (init_energy_positive (1 / 60) 21000 70 H0 H1).
Defined.

(** ** The battery and the flag *)

Lemma battery_positive (self : Car.t Q) :
  Car.Reachable self ->
  0 <= Car.charge_speed_per_tick self ->
  0 < Car.battery_charge self.
Proof.
  induction 1 as [tf cs dph | self time d _ IH]; intro Hr.
  - cbn. numq. q_eval.
  - destruct (tick_constants self time d) as (_ & _ & _ & Hr' & _).
    cbn zeta in Hr'. rewrite Hr' in Hr. specialize (IH Hr).
    destruct (Car.tick_kind self) eqn:Hk.
    + destruct (tick_charging self time d Hk) as (Hb & _).
      cbn zeta in Hb. rewrite Hb. lra.
    + destruct (tick_driving self time d Hk) as (_ & _ & Hb & _).
      cbn zeta in Hb. rewrite Hb.
      destruct (Qlt_le_dec 0
                  (Car.battery_charge self - Car.energy_usage_per_tick self))
        as [Hpos | Hneg]; [exact Hpos | ].
      assert (Hc : Car.tick_kind self = Charging)
        by (apply tick_kind_charging_iff; right; exact Hneg).
      congruence.
Qed.

(** The battery is never empty: when the charge per tick is not negative
    and a tick of driving needs no more than a full battery, every
    reachable state has [0 < battery_charge], because the look-ahead guard
    lets the car drive only when something is left afterwards. *)
Theorem battery_never_empty (self : Car.t Q) :
  Car.Reachable self ->
  0 <= Car.charge_speed_per_tick self ->
  Car.energy_usage_per_tick self <= Car.battery_capacity self ->
  0 < Car.battery_charge self.
Proof. intros Hreach Hr _. exact (battery_positive self Hreach Hr). Qed.

Lemma battery_never_empty_witness :
  let self : Car.t Q :=
    Car.ticks (Car.init 1 21000 100) (calls_from 1 5 (inject_Z 24)) in
  Car.Reachable self
  /\ 0 <= Car.charge_speed_per_tick self
  /\ Car.energy_usage_per_tick self <= Car.battery_capacity self
  /\ 0 < Car.battery_charge self.
Proof.
  cbn zeta.
  set (self := Car.ticks (Car.init 1 21000 100 : Car.t Q)
                 (calls_from 1 5 (inject_Z 24))).
  assert (H0 : Car.Reachable self) by (apply reachable_ticks; constructor).
  assert (H1 : 0 <= Car.charge_speed_per_tick self) by q_eval.
  assert (H2 : Car.energy_usage_per_tick self <= Car.battery_capacity self)
    by q_eval.
  repeat (split; [assumption | ]).
  exact (battery_never_empty self H0 H1 H2).
Defined.

(** A reachable state with the charging flag set is a state left by a
    charging tick that met neither stop condition; in particular one more
    tick of charging fits below the capacity. *)
Lemma flag_set_invariant (self : Car.t Q) :
  Car.Reachable self ->
  Car.charging self = true ->
  Car.battery_charge self + Car.charge_speed_per_tick self
  <= Car.battery_capacity self.
Proof.
  induction 1 as [tf cs dph | self time d _ _]; intro Hon.
  - discriminate.
  - destruct (tick_constants self time d) as (_ & Hc & _ & Hr & _).
    cbn zeta in Hc, Hr.
    destruct (Car.tick_kind self) eqn:Hk.
    + destruct (tick_charging self time d Hk) as (_ & _ & _ & _ & Hf).
      cbn zeta in Hf. rewrite Hon in Hf. symmetry in Hf.
      apply negb_true_iff, orb_false_iff in Hf. destruct Hf as [Hfull _].
      unfold Car.is_fully_charged in Hfull. numq.
      apply negb_false_iff, Qle_bool_iff in Hfull. exact Hfull.
    + destruct (tick_driving self time d Hk) as (_ & Hoff & _).
      cbn zeta in Hoff. congruence.
Qed.

(** Whenever the charging flag is set in a reachable state, the battery
    is at least one tick of charging below its capacity, and the next
    tick is a charging tick that ends at or below the capacity. *)
Theorem flag_set_means_room_to_charge
  (self : Car.t Q) (time : Z) (total_duration : Q) :
  Car.Reachable self ->
  Car.charging self = true ->
  Car.battery_charge self + Car.charge_speed_per_tick self
  <= Car.battery_capacity self
  /\ Car.tick_kind self = Charging
  /\ Car.battery_charge (Car.tick self time total_duration)
     <= Car.battery_capacity self.
Proof.
  intros Hreach Hon.
  pose proof (flag_set_invariant self Hreach Hon) as Hroom.
  assert (Hk : Car.tick_kind self = Charging)
    by (apply tick_kind_charging_iff; left; exact Hon).
  destruct (tick_charging self time total_duration Hk) as (Hb & _).
  cbn zeta in Hb.
  split; [exact Hroom | split; [exact Hk | ]].
  rewrite Hb. exact Hroom.
Qed.

Lemma flag_set_means_room_to_charge_witness :
  let self : Car.t Q :=
    Car.ticks (Car.init 1 21000 100) (calls_from 1 5 (inject_Z 24)) in
  Car.Reachable self
  /\ Car.charging self = true
  /\ Car.battery_charge (Car.tick self 6 (inject_Z 24))
     <= Car.battery_capacity self.
Proof.
  cbn zeta.
  assert (H0 : Car.Reachable
                 (Car.ticks (Car.init 1 21000 100 : Car.t Q)
                    (calls_from 1 5 (inject_Z 24))))
    by (apply reachable_ticks; constructor).
  assert (H1 : Car.charging
                 (Car.ticks (Car.init 1 21000 100 : Car.t Q)
                    (calls_from 1 5 (inject_Z 24))) = true)
    by (vm_compute; reflexivity).
  split; [exact H0 | split; [exact H1 | ]].
  apply (flag_set_means_room_to_charge _ 6%Z (inject_Z 24) H0 H1).
Defined.

(** ** After a stop *)

(** The "sufficiently charged" stop lets the car go on: after a charging
    tick at which [is_sufficiently_charged] holds, with at least one tick
    left before the horizon and an energy per tick that is not negative,
    the charging flag is clear and the next tick is a driving tick. *)
Theorem sufficient_charge_ends_charging
  (self : Car.t Q) (time : Z) (total_duration : Q) :
  Car.tick_kind self = Charging ->
  0 <= Car.energy_usage_per_tick self ->
  1 <= total_duration - inject_Z time ->
  let self' := Car.tick self time total_duration in
  Car.is_sufficiently_charged self' time total_duration = true ->
  Car.charging self' = false /\ Car.tick_kind self' = Driving.
Proof.
  intros Hk He Hrem self' Hsuff.
  destruct (tick_charging self time total_duration Hk) as (_ & _ & _ & _ & Hf).
  destruct (tick_constants self time total_duration) as (_ & _ & He' & _).
  cbn zeta in Hf, He'. fold self' in Hf, He'.
  rewrite Hsuff, orb_true_r in Hf. cbn [negb] in Hf.
  split; [exact Hf | ].
  destruct (Car.tick_kind self') eqn:Hk'; [exfalso | reflexivity].
  apply tick_kind_charging_iff in Hk'.
  destruct Hk' as [Hon | Hlow]; [congruence | ].
  unfold Car.is_sufficiently_charged in Hsuff. apply gtb_spec in Hsuff.
  rewrite He' in *. numq.
  assert (Hm : 0 <= (total_duration - inject_Z time - 1)
                    * Car.energy_usage_per_tick self)
    by (apply Qmult_le_0_compat; lra).
  nra.
Qed.

Lemma sufficient_charge_ends_charging_witness :
  let self : Car.t Q :=
    Car.ticks (Car.init 1 21000 100) (calls_from 1 4 (inject_Z 6)) in
  Car.tick_kind self = Charging
  /\ 0 <= Car.energy_usage_per_tick self
  /\ 1 <= inject_Z 6 - inject_Z 5
  /\ Car.is_sufficiently_charged (Car.tick self 5 (inject_Z 6)) 5
       (inject_Z 6) = true
  /\ Car.tick_kind (Car.tick self 5 (inject_Z 6)) = Driving.
Proof.
  cbn zeta.
  set (self := Car.ticks (Car.init 1 21000 100 : Car.t Q)
                 (calls_from 1 4 (inject_Z 6))).
  assert (H0 : Car.tick_kind self = Charging) by (vm_compute; reflexivity).
  assert (H1 : 0 <= Car.energy_usage_per_tick self) by q_eval.
  assert (H2 : 1 <= inject_Z 6 - inject_Z 5) by q_eval.
  assert (H3 : Car.is_sufficiently_charged (Car.tick self 5 (inject_Z 6)) 5
                 (inject_Z 6) = true) by (vm_compute; reflexivity).
  repeat (split; [assumption | ]).
  apply (sufficient_charge_ends_charging self 5 (inject_Z 6) H0 H1 H2 H3).
Defined.

(** ** The end of a run *)

Lemma calls_from_snoc (n : nat) : forall (time : Z) (d : Q),
  calls_from time (S n) d
  = calls_from time n d ++ [((time + Z.of_nat n)%Z, d)].
Proof.
  induction n as [ | n IH]; intros time d.
  - cbn. rewrite Z.add_0_r. reflexivity.
  - change (calls_from time (S (S n)) d)
      with ((time, d) :: calls_from (time + 1) (S n) d).
    rewrite IH. cbn [app].
    replace (time + 1 + Z.of_nat n)%Z with (time + Z.of_nat (S n))%Z by lia.
    reflexivity.
Qed.

Lemma last_tick_clears_flag (self : Car.t Q) (time : Z) (d : Q) :
  Car.Reachable self ->
  0 <= Car.charge_speed_per_tick self ->
  d == inject_Z time ->
  Car.charging (Car.tick self time d) = false.
Proof.
  intros Hreach Hr Hd.
  destruct (Car.tick_kind self) eqn:Hk.
  - destruct (tick_charging self time d Hk) as (_ & _ & _ & _ & Hflag).
    cbn zeta in Hflag. rewrite Hflag. apply negb_false_iff, orb_true_iff.
    right.
    assert (Hpos : 0 < Car.battery_charge (Car.tick self time d)).
    { apply battery_positive; [constructor; exact Hreach | ].
      destruct (tick_constants self time d) as (_ & _ & _ & Hc & _).
      cbn zeta in Hc. rewrite Hc. exact Hr. }
    unfold Car.is_sufficiently_charged. apply gtb_spec.
    assert (Hz0 : d - inject_Z time == 0) by lra.
    assert (Hz : (d - inject_Z time)
                 * Car.energy_usage_per_tick (Car.tick self time d) == 0)
      by (rewrite Hz0; ring).
    change ((d - inject_Z time)
            * Car.energy_usage_per_tick (Car.tick self time d)
            < Car.battery_charge (Car.tick self time d)).
    rewrite Hz. exact Hpos.
  - destruct (tick_driving self time d Hk) as (_ & Hoff & _).
    exact Hoff.
Qed.

(** A complete run never ends in the middle of a charge: when the charge
    per tick is not negative and a tick of driving needs between 0 and a
    full battery, then at the last tick of an integer horizon nothing
    remains to be driven, a charging tick finds the battery "sufficiently
    charged", and the flag is clear when the run ends. *)
Theorem run_ends_with_flag_clear (N : Z) (tf cs dph : Q) (fuel : nat) :
  (0 <= N)%Z ->
  (Z.to_nat N < fuel)%nat ->
  0 <= Car.charge_speed_per_tick (Car.init tf cs dph) ->
  0 <= Car.energy_usage_per_tick (Car.init tf cs dph) ->
  Car.energy_usage_per_tick (Car.init tf cs dph)
  <= Car.battery_capacity (Car.init tf cs dph) ->
  exists final,
    Simulation.loop fuel (Simulation.init tf (inject_Z N) (Car.init tf cs dph))
    = Some final
    /\ Car.charging (Simulation.car final) = false.
Proof.
  intros HN Hf Hr _ _.
  eexists. split; [apply start_runs; assumption | ].
  cbn [Simulation.car].
  destruct (Z.to_nat N) as [ | n] eqn:En; [reflexivity | ].
  rewrite calls_from_snoc, ticks_snoc.
  assert (Hlast : (1 + Z.of_nat n = N)%Z) by lia. rewrite Hlast.
  apply last_tick_clears_flag.
  - apply reachable_ticks. constructor.
  - destruct (ticks_constants (calls_from 1 n (inject_Z N))
                (Car.init tf cs dph)) as (_ & _ & _ & Hc & _).
    cbn zeta in Hc. rewrite Hc. exact Hr.
  - reflexivity.
Qed.

Lemma run_ends_with_flag_clear_witness :
  (0 <= 5)%Z /\ (Z.to_nat 5 < 6)%nat
  /\ 0 <= Car.charge_speed_per_tick (Car.init 1 21000 100)
  /\ 0 <= Car.energy_usage_per_tick (Car.init 1 21000 100)
  /\ Car.energy_usage_per_tick (Car.init 1 21000 100)
     <= Car.battery_capacity (Car.init 1 21000 100)
  /\ Car.tick_kind
       (Car.ticks (Car.init 1 21000 100) (calls_from 1 4 (inject_Z 5)))
     = Charging
  /\ exists final,
       Simulation.loop 6
         (Simulation.init 1 (inject_Z 5) (Car.init 1 21000 100))
       = Some final
       /\ Car.charging (Simulation.car final) = false.
Proof.
  assert (H0 : (0 <= 5)%Z) by lia.
  assert (H1 : (Z.to_nat 5 < 6)%nat) by (cbn; lia).
  assert (H2 : 0 <= Car.charge_speed_per_tick (Car.init 1 21000 100))
    by q_eval.
  assert (H3 : 0 <= Car.energy_usage_per_tick (Car.init 1 21000 100))
    by q_eval.
  assert (H4 : Car.energy_usage_per_tick (Car.init 1 21000 100)
               <= Car.battery_capacity (Car.init 1 21000 100)) by q_eval.
  assert (H5 : Car.tick_kind
                 (Car.ticks (Car.init 1 21000 100 : Car.t Q)
                    (calls_from 1 4 (inject_Z 5))) = Charging)
    by (vm_compute; reflexivity).
  repeat (split; [assumption | ]).
  exact (run_ends_with_flag_clear 5 1 21000 100 6 H0 H1 H2 H3 H4).
Defined.

(** ** The loop for any horizon *)

Lemma loop_runs_between (n : nat) :
  forall (self : Simulation.t Q) (fuel : nat),
  Simulation.duration self
  < inject_Z (Simulation.time self) + inject_Z (Z.of_nat n) ->
  (n = 0%nat
   \/ inject_Z (Simulation.time self) + inject_Z (Z.of_nat n) - 1
      <= Simulation.duration self) ->
  (n < fuel)%nat ->
  Simulation.loop fuel self
  = Some (Simulation.mk
            (Simulation.time self + Z.of_nat n)
            (Simulation.time_factor self)
            (Simulation.duration self)
            (Car.ticks (Simulation.car self)
               (calls_from (Simulation.time self) n
                  (Simulation.duration self)))).
Proof.
  induction n as [ | n IH]; intros self fuel Hup Hlow Hf;
    (destruct fuel as [ | fuel]; [lia | ]); cbn [Simulation.loop].
  - assert (E : Simulation.is_done self = true).
    { apply is_done_iff. change (inject_Z (Z.of_nat 0)) with 0 in Hup. lra. }
    rewrite E. destruct self as [t f d c]. cbn. rewrite Z.add_0_r. reflexivity.
  - destruct Hlow as [Hlow | Hlow]; [discriminate | ].
    rewrite inject_nat_succ in Hup, Hlow.
    assert (Hn : 0 <= inject_Z (Z.of_nat n))
      by (change 0 with (inject_Z 0); rewrite <- Zle_Qle; lia).
    assert (E : Simulation.is_done self = false).
    { destruct (Simulation.is_done self) eqn:E'; [ | reflexivity].
      apply is_done_iff in E'. lra. }
    rewrite E, IH.
    + destruct self as [t f d c]. cbn. f_equal. f_equal. lia.
    + destruct self as [t f d c]. unfold Simulation.tick.
      cbn [Simulation.duration Simulation.time] in *.
      rewrite inject_Z_plus. change (inject_Z 1) with 1. lra.
    + destruct self as [t f d c]. unfold Simulation.tick.
      cbn [Simulation.duration Simulation.time] in *.
      destruct n as [ | n]; [left; reflexivity | right].
      rewrite inject_Z_plus. change (inject_Z 1) with 1. lra.
    + lia.
Qed.

(** For any horizon, integer or not, the loop of a fresh simulation
    stops: it runs one tick per integer from 1 up to the horizon, that is
    [floor total_duration] ticks (none when the horizon is below 1), and
    leaves [time] one past the last tick index. *)
Theorem loop_runs_floor_of_duration
  (tf total_duration : Q) (car0 : Car.t Q) (fuel : nat) :
  (Z.to_nat (Qfloor total_duration) < fuel)%nat ->
  let n := Z.to_nat (Qfloor total_duration) in
  Simulation.loop fuel (Simulation.init tf total_duration car0)
  = Some (Simulation.mk (1 + Z.of_nat n) tf total_duration
            (Car.ticks car0 (calls_from 1 n total_duration)))
  /\ Car.time_history (Car.ticks car0 (calls_from 1 n total_duration))
     = Car.time_history car0 ++ indices n.
Proof.
  intros Hf n. subst n.
  pose proof (Qlt_floor total_duration) as Hlt.
  pose proof (Qfloor_le total_duration) as Hle.
  rewrite inject_Z_plus in Hlt. change (inject_Z 1) with 1 in Hlt.
  set (k := Qfloor total_duration) in *.
  split.
  - apply (loop_runs_between (Z.to_nat k)
             (Simulation.init tf total_duration car0) fuel);
      cbn [Simulation.init Simulation.time Simulation.duration];
      [ | | exact Hf].
    + assert (Hk : inject_Z k <= inject_Z (Z.of_nat (Z.to_nat k)))
        by (rewrite <- Zle_Qle; lia).
      change (inject_Z 1) with 1. lra.
    + destruct (Z_le_gt_dec 1 k) as [Hpos | Hneg].
      * right. rewrite Z2Nat.id by lia. change (inject_Z 1) with 1. lra.
      * left. lia.
  - rewrite ticks_time_history, calls_from_indices. reflexivity.
Qed.

Lemma loop_runs_floor_of_duration_witness :
  (Z.to_nat (Qfloor (7 # 2)) < 4)%nat
  /\ exists final,
       Simulation.loop 4 (Simulation.init 1 (7 # 2) (Car.init 1 21000 70))
       = Some final
       /\ Simulation.time final = 4%Z
       /\ Car.time_history (Simulation.car final) = [1; 2; 3]%Z.
Proof.
  assert (H : (Z.to_nat (Qfloor (7 # 2)) < 4)%nat) by (vm_compute; lia).
  split; [exact H | ].
  destruct (loop_runs_floor_of_duration 1 (7 # 2) (Car.init 1 21000 70) 4 H)
    as (Hl & Ht).
  eexists. split; [exact Hl | split; [reflexivity | exact Ht]].
Defined.

(** ** The histories and the counter, whatever the arithmetic *)

Section Records.

Context {num : Type} `{Number num}.

Lemma histories_invariant (self : Car.t num) :
  Car.Reachable self ->
  length (Car.time_history self) = length (Car.charge_level_history self)
  /\ length (Car.charge_level_history self)
     = length (Car.distance_driven_history self)
  /\ (forall x, Car.charge_level_history self <> [] ->
      last (Car.charge_level_history self) x = Car.battery_charge self)
  /\ (forall x, Car.distance_driven_history self <> [] ->
      last (Car.distance_driven_history self) x = Car.distance_driven self).
Proof.
  induction 1 as [tf cs dph | self time d _ (IH1 & IH2 & _)].
  - cbn. repeat split; intros; congruence.
  - destruct (tick_histories self time d) as (Ht & Hc & Hx).
    cbn zeta in Ht, Hc, Hx. rewrite Ht, Hc, Hx, !length_app. cbn [length].
    repeat split; try lia; intros; apply last_last.
Qed.

(** The stop counter of a car that starts with the flag clear moves off
    its initial value exactly when a charging tick occurs, and it never
    counts more stops than there were charging ticks. *)
Lemma stops_and_charging_ticks (calls : list (Z * num)) :
  forall self : Car.t num,
  (Car.number_of_charging_stops self
   <= Car.number_of_charging_stops (Car.ticks self calls)
   <= Car.number_of_charging_stops self
      + Z.of_nat (count_charging (Car.kinds self calls)))%Z
  /\ (Car.charging self = false ->
      (Car.number_of_charging_stops (Car.ticks self calls)
       = Car.number_of_charging_stops self
       <-> count_charging (Car.kinds self calls) = 0%nat)).
Proof.
  unfold count_charging.
  induction calls as [ | [time d] rest IH]; intro self;
    cbn [Car.ticks Car.kinds filter].
  - cbn. split; [lia | tauto].
  - destruct (IH (Car.tick self time d)) as (Hb & Hz).
    pose proof (tick_flag_and_stops self time d) as Ht. cbn zeta in Ht.
    destruct (Car.tick_kind self); cbn [Car.is_charging_kind length].
    + destruct Ht as (Hs & _).
      destruct (Car.charging self) eqn:Ef.
      * split; [lia | discriminate].
      * split; [lia | ]. intros _. split; [lia | discriminate].
    + destruct Ht as (_ & Hoff & Hs). rewrite Hs in *.
      split; [lia | ]. intros _. apply Hz. exact Hoff.
Qed.

End Records.

(** In every reachable state, under any arithmetic, the three histories
    have the same length, and once a tick has run their last samples are
    the current [battery_charge] and [distance_driven]. *)
Theorem histories_stay_in_step
  (num : Type) (N : Number num) (self : Car.t num) :
  Car.Reachable self ->
  length (Car.time_history self) = length (Car.charge_level_history self)
  /\ length (Car.charge_level_history self)
     = length (Car.distance_driven_history self)
  /\ (forall x, Car.charge_level_history self <> [] ->
      last (Car.charge_level_history self) x = Car.battery_charge self)
  /\ (forall x, Car.distance_driven_history self <> [] ->
      last (Car.distance_driven_history self) x = Car.distance_driven self).
Proof. exact (histories_invariant self). Qed.

Lemma histories_stay_in_step_witness :
  let self : Car.t float :=
    Car.ticks (Car.init (lit 1) (lit 21000) (lit 100))
      (calls_from 1 5 (lit 24)) in
  Car.Reachable self
  /\ length (Car.time_history self) = 5%nat
  /\ last (Car.charge_level_history self) 0%float
     = Car.battery_charge self.
Proof.
  cbn zeta.
  assert (H0 : Car.Reachable
                 (Car.ticks (Car.init (lit 1) (lit 21000) (lit 100)
                             : Car.t float)
                    (calls_from 1 5 (lit 24))))
    by (apply reachable_ticks; constructor).
  destruct (histories_stay_in_step _ _ _ H0) as (_ & _ & Hlast & _).
  split; [exact H0 | split; [vm_compute; reflexivity | ]].
  apply Hlast. vm_compute. discriminate.
Defined.

(** For a fresh car, under any arithmetic, the stop counter is 0 exactly
    when no tick so far was a charging tick, and it is never negative nor
    above the number of charging ticks. *)
Theorem stops_zero_iff_never_charged
  (num : Type) (N : Number num) (tf cs dph : num) (calls : list (Z * num)) :
  let car0 := Car.init tf cs dph in
  (0 <= Car.number_of_charging_stops (Car.ticks car0 calls)
   <= Z.of_nat (count_charging (Car.kinds car0 calls)))%Z
  /\ (Car.number_of_charging_stops (Car.ticks car0 calls) = 0%Z
      <-> count_charging (Car.kinds car0 calls) = 0%nat).
Proof.
  cbn zeta.
  destruct (stops_and_charging_ticks calls (Car.init tf cs dph)) as (Hb & Hz).
  cbn [Car.init Car.number_of_charging_stops Car.charging] in Hb, Hz.
  split; [lia | apply Hz; reflexivity].
Qed.

(** ** The report *)

Lemma qeq_bool_false (a : Q) : ~ a == 0 -> Qeq_bool a 0 = false.
Proof.
  intro H. destruct (Qeq_bool a 0) eqn:E; [ | reflexivity].
  apply Qeq_bool_iff in E. contradiction.
Qed.

Lemma energy_per_km_returns (self : Car.t Q) :
  exists e, Car.energy_per_km self = Some e.
Proof.
  unfold Car.energy_per_km, checked_div. numq.
  destruct (Qeq_bool (Car.distance_driven self) 0); cbn; eauto.
Qed.

Lemma status_text_returns (self : Car.t Q) (duration : Q) :
  ~ Car.time_factor self == 0 -> ~ duration == 0 ->
  exists e,
    Car.energy_per_km self = Some e
    /\ Car.status_text self duration
       = Some (Report.mk
                 (Car.battery_capacity self) (Car.battery_charge self)
                 (Car.battery_charge_total self)
                 (Car.charge_speed_per_tick self / Car.time_factor self)
                 (Car.number_of_charging_stops self)
                 (Car.energy_usage_per_tick self / Car.time_factor self)
                 (Car.energy_usage_per_tick self) e
                 (Car.distance_per_tick self) (Car.distance_driven self)
                 (Car.distance_per_tick self / Car.time_factor self)
                 (Car.distance_driven self / duration / Car.time_factor self)
                 (Car.time_factor self) (1 / Car.time_factor self)).
Proof.
  intros Htf Hd. destruct (energy_per_km_returns self) as [e He].
  exists e. split; [exact He | ].
  unfold Car.status_text. rewrite He. unfold checked_div. numq.
  rewrite (qeq_bool_false _ Htf), (qeq_bool_false _ Hd). reflexivity.
Qed.

Lemma status_text_raises (self : Car.t Q) (duration : Q) :
  Car.time_factor self == 0 \/ duration == 0 ->
  Car.status_text self duration = None.
Proof.
  intro H. destruct (energy_per_km_returns self) as [e He].
  unfold Car.status_text. rewrite He. unfold checked_div. numq.
  destruct (Qeq_bool (Car.time_factor self) 0) eqn:Etf; cbn; [reflexivity | ].
  destruct (Qeq_bool duration 0) eqn:Ed; cbn; [reflexivity | ].
  destruct H as [H | H]; apply Qeq_bool_iff in H; congruence.
Qed.

Lemma status_text_none_inv (self : Car.t Q) (duration : Q) :
  Car.status_text self duration = None ->
  Car.time_factor self == 0 \/ duration == 0.
Proof.
  intro Hnone.
  destruct (Qeq_dec (Car.time_factor self) 0) as [Htf | Htf]; [left; exact Htf | ].
  destruct (Qeq_dec duration 0) as [Hd | Hd]; [right; exact Hd | ].
  destruct (status_text_returns self duration Htf Hd) as (e & _ & Hsome).
  congruence.
Qed.

(** [status_text] raises [ZeroDivisionError] exactly when the time factor
    of the car or the duration it is given is zero; a car that has not
    moved is no cause for it. *)
Theorem status_text_raises_iff (self : Car.t Q) (duration : Q) :
  Car.status_text self duration = None
  <-> Car.time_factor self == 0 \/ duration == 0.
Proof.
  split; [apply status_text_none_inv | apply status_text_raises].
Qed.

(** ** [start] *)

Lemma loop_preserves (fuel : nat) :
  forall self final : Simulation.t Q,
  Simulation.loop fuel self = Some final ->
  Simulation.duration final = Simulation.duration self
  /\ Car.time_factor (Simulation.car final)
     = Car.time_factor (Simulation.car self).
Proof.
  induction fuel as [ | fuel IH]; intros self final Hl;
    cbn [Simulation.loop] in Hl; [discriminate | ].
  destruct (Simulation.is_done self).
  - injection Hl as <-. split; reflexivity.
  - destruct (IH _ _ Hl) as (Hd & Ht).
    destruct (tick_constants (Simulation.car self) (Simulation.time self)
                (Simulation.duration self)) as (Ktf & _).
    cbn zeta in Ktf. unfold Simulation.tick in Hd, Ht.
    cbn [Simulation.duration Simulation.car] in Hd, Ht.
    split; congruence.
Qed.

(** [start] raises [ZeroDivisionError] exactly when the time factor of
    its car or its duration is zero, and then it raises in the report it
    prints first, before any tick: a simulation of duration 0, whose loop
    alone would end at once with an empty history, does not return. *)
Theorem start_raises_iff (fuel : nat) (self : Simulation.t Q) :
  (Simulation.start fuel self = Simulation.Raised
   <-> Car.time_factor (Simulation.car self) == 0
       \/ Simulation.duration self == 0)
  /\ (Simulation.start fuel self = Simulation.Raised ->
      Car.status_text (Simulation.car self) (Simulation.duration self) = None).
Proof.
  unfold Simulation.start.
  destruct (Car.status_text (Simulation.car self) (Simulation.duration self))
    as [first | ] eqn:Hfirst.
  - assert (Hok : ~ (Car.time_factor (Simulation.car self) == 0
                     \/ Simulation.duration self == 0)).
    { intro H. apply status_text_raises in H. congruence. }
    destruct (Simulation.loop fuel self) as [final | ] eqn:Hl.
    + destruct (loop_preserves fuel self final Hl) as (Hd & Ht).
      destruct (status_text_returns (Simulation.car final)
                  (Simulation.duration final)) as (e & _ & Hlast).
      * rewrite Ht. tauto.
      * rewrite Hd. tauto.
      * rewrite Hlast. split; [split | ]; [discriminate | tauto | discriminate].
    + split; [split | ]; [discriminate | tauto | discriminate].
  - split; [ | reflexivity].
    split; [intros _ | reflexivity].
    apply status_text_none_inv. exact Hfirst.
Qed.

(** ** The entry point *)

Lemma main_duration : main_total_duration == inject_Z 1440.
Proof. vm_compute. reflexivity. Qed.

Lemma main_simulation_returns (speed : Q) (fuel : nat) :
  (1440 < fuel)%nat ->
  0 <= power_for_velocity (speed / 3.6) * main_time_factor ->
  power_for_velocity (speed / 3.6) * main_time_factor + 350 <= 70000 ->
  exists first final last,
    Simulation.start fuel (main_simulation speed)
    = Simulation.Returned (first, final, last)
    /\ main_result speed final.
Proof.
  intros Hf He Hcap.
  set (car0 := Car.init main_time_factor Car.default_charge_speed_per_hour
                 speed : Car.t Q).
  set (calls := calls_from 1 1440 (main_total_duration : Q)).
  assert (Htf : ~ (main_time_factor : Q) == 0) by q_eval.
  assert (Hd : ~ (main_total_duration : Q) == 0) by q_eval.
  assert (Hrate : Car.charge_speed_per_tick car0 == 350) by q_eval.
  assert (Hc0 : Car.battery_capacity car0 == 70000) by q_eval.
  assert (He0 : Car.energy_usage_per_tick car0
                = power_for_velocity (speed / 3.6) * main_time_factor)
    by reflexivity.
  destruct (ticks_constants calls car0) as (Ktf & Kc & Ke & Kr & _).
  cbn zeta in Ktf, Kc, Ke, Kr.
  assert (Hreach : Car.Reachable (Car.ticks car0 calls))
    by (apply reachable_ticks; constructor).
  assert (Hloop : Simulation.loop fuel (main_simulation speed)
                  = Some (Simulation.mk 1441 main_time_factor
                            main_total_duration (Car.ticks car0 calls))).
  { rewrite (loop_runs 1440 (main_simulation speed) fuel);
      [reflexivity | | exact Hf].
    cbn [main_simulation Simulation.init Simulation.duration Simulation.time].
    rewrite main_duration. reflexivity. }
  destruct (status_text_returns car0 main_total_duration Htf Hd)
    as (e0 & _ & Hfirst).
  destruct (status_text_returns (Car.ticks car0 calls) main_total_duration)
    as (e1 & _ & Hlast); [rewrite Ktf; exact Htf | exact Hd | ].
  do 3 eexists. split.
  - unfold Simulation.start.
    cbn [main_simulation Simulation.init Simulation.car Simulation.duration].
    fold car0. rewrite Hfirst.
    change (Simulation.init main_time_factor main_total_duration car0)
      with (main_simulation speed).
    rewrite Hloop. cbn [Simulation.car Simulation.duration].
    rewrite Hlast. reflexivity.
  - unfold main_result. cbn zeta. fold car0. fold calls.
    cbn [Simulation.car Simulation.time].
    split; [reflexivity | split; [reflexivity | ]].
    split; [unfold calls; rewrite ticks_time_history, calls_from_indices;
            reflexivity | ].
    split.
    { unfold calls.
      rewrite (stops_runs 1440 car0 1%Z main_total_duration false).
      - reflexivity.
      - rewrite main_duration. reflexivity.
      - rewrite He0. exact He.
      - rewrite He0, Hrate, Hc0. exact Hcap.
      - reflexivity.
      - discriminate. }
    split.
    { unfold calls. change 1440%nat with (S 1439).
      rewrite calls_from_snoc, ticks_snoc.
      apply last_tick_clears_flag.
      - apply reachable_ticks. constructor.
      - destruct (ticks_constants (calls_from 1 1439 main_total_duration) car0)
          as (_ & _ & _ & Kr' & _).
        cbn zeta in Kr'. rewrite Kr', Hrate. q_eval.
      - rewrite main_duration. reflexivity. }
    split.
    { apply battery_positive; [exact Hreach | ]. rewrite Kr, Hrate. q_eval. }
    destruct (battery_bound_invariant (Car.ticks car0 calls) Hreach)
      as (Hb & _).
    + rewrite Kr, Hrate. q_eval.
    + rewrite Ke, He0. exact He.
    + rewrite Ke, Kc, He0, Hc0. lra.
    + rewrite Kc, Kr, Hc0, Hrate in Hb. lra.
Qed.

Lemma main_loop_returns (fuel : nat) (speeds : list Q) :
  (1440 < fuel)%nat ->
  Forall (fun speed =>
            0 <= power_for_velocity (speed / 3.6) * main_time_factor
            /\ power_for_velocity (speed / 3.6) * main_time_factor + 350
               <= 70000) speeds ->
  exists finals,
    main_loop fuel speeds = Simulation.Returned finals
    /\ Forall2 main_result speeds finals.
Proof.
  intros Hf Hall.
  induction Hall as [ | speed rest (He & Hcap) _ (finals & Hl & Hres)].
  - exists []. split; [reflexivity | constructor].
  - destruct (main_simulation_returns speed fuel Hf He Hcap)
      as (first & final & last & Hs & Hr).
    exists (final :: finals). cbn [main_loop]. rewrite Hs, Hl.
    split; [reflexivity | constructor; assumption].
Qed.

(** [main] returns: none of its seven simulations raises, each runs the
    1440 one-minute ticks of a day, and for each the stop counter is the
    number of maximal runs of charging ticks, the car is not charging at
    the end, and its battery holds more than 0 and at most 70350. *)
Theorem main_returns (fuel : nat) :
  (1440 < fuel)%nat ->
  exists finals,
    main fuel = Simulation.Returned finals
    /\ Forall2 main_result main_speeds finals.
Proof.
  intro Hf. apply main_loop_returns; [exact Hf | ].
  unfold main_speeds. repeat constructor; q_eval.
Qed.

Lemma main_returns_witness :
  (1440 < 1441)%nat
  /\ exists finals,
       main 1441 = Simulation.Returned finals
       /\ Forall2 main_result main_speeds finals.
Proof.
  assert (H : (1440 < 1441)%nat) by apply Nat.lt_succ_diag_r.
  split; [exact H | exact (main_returns 1441 H)].
Defined.

(** ** Further properties at concrete inputs *)

Lemma stops_zero_iff_never_charged_witness :
  let car0 : Car.t Q := Car.init 1 21000 70 in
  let calls := calls_from 1 5 (inject_Z 5) in
  count_charging (Car.kinds car0 calls) = 0%nat
  /\ Car.number_of_charging_stops (Car.ticks car0 calls) = 0%Z.
Proof.
  cbn zeta.
  assert (H : count_charging
                (Car.kinds (Car.init 1 21000 70 : Car.t Q)
                   (calls_from 1 5 (inject_Z 5))) = 0%nat)
    by (vm_compute; reflexivity).
  split; [exact H | ].
  apply (proj2 (stops_zero_iff_never_charged Q NumQ 1 21000 70
                  (calls_from 1 5 (inject_Z 5)))).
  exact H.
Defined.

Lemma status_text_raises_iff_witness :
  Car.time_factor (Car.init 0 21000 70 : Car.t Q) == 0
  /\ Car.status_text (Car.init 0 21000 70 : Car.t Q) 5 = None.
Proof.
  assert (H : Car.time_factor (Car.init 0 21000 70 : Car.t Q) == 0)
    by reflexivity.
  split; [exact H | ].
  apply (proj2 (status_text_raises_iff (Car.init 0 21000 70) 5)).
  left. exact H.
Defined.

Lemma start_raises_iff_witness :
  let self : Simulation.t Q := Simulation.init 1 0 (Car.init 1 21000 70) in
  Simulation.duration self == 0
  /\ Simulation.loop 1 self = Some self
  /\ Simulation.start 1 self = Simulation.Raised.
Proof.
  cbn zeta.
  assert (H : Simulation.duration
                (Simulation.init 1 0 (Car.init 1 21000 70) : Simulation.t Q)
              == 0) by reflexivity.
  split; [exact H | split; [vm_compute; reflexivity | ]].
  apply (proj2 (proj1 (start_raises_iff 1
                         (Simulation.init 1 0 (Car.init 1 21000 70))))).
  right. exact H.
Defined.
